(** * The [kafka list] command of app-services-cli

    A shallow embedding of [pkg/cmd/kafka/list/list.go]: the query builder
    ([buildQuery]), the cluster resolver ([getClusterIdMapFromKafkas],
    [createSearchString]), the row projector ([mapResponseItemsToRows]) and
    the command body ([runList]), followed by the properties the
    specification states about them. *)

From Stdlib Require Import String Ascii ZArith DecimalString.
From stdpp Require Import gmap strings list fin_maps.

(** ** Go's [fmt] verbs, as far as the command uses them *)

Module Fmt.

(** Where the scanner of [doPrintf] stands inside a format. *)
Inductive scan : Type :=
| Lit                       (* plain text *)
| Verb                      (* just after a [%] *)
| InIndex (n : nat)         (* inside [%[...], digits read so far *)
| AfterIndex (ix : option nat). (* after the closing bracket *)

Definition is_digit (c : ascii) : bool :=
  (48 <=? nat_of_ascii c)%nat && (nat_of_ascii c <=? 57)%nat.

Definition digit (c : ascii) : nat := nat_of_ascii c - 48.

(** One operand printed under verb [c]; every operand of this command is
    a string (or an error, printed as its message).  The formats of the
    command use [%%], [%s], [%v] and [%[1]v] only; flags, widths, the
    verbs [q], [x], [X] and malformed indexes are outside the fragment. *)
Definition printArg (c : ascii) (arg : option string) : string :=
  match arg with
  | None => "%!" +:+ String c "(MISSING)"
  | Some s =>
      if (Ascii.eqb c "v" || Ascii.eqb c "s")%bool then s
      else "%!" +:+ String c ("(string=" +:+ s +:+ ")")
  end.

Definition extra (args : list string) : string :=
  "%!(EXTRA " +:+ String.concat ", " (map (fun a => "string=" +:+ a) args) +:+ ")".

Fixpoint doPrintf (format : string) (st : scan) (argNum : nat)
    (reordered : bool) (a : list string) : string :=
  match format with
  | EmptyString =>
      match st with
      | Lit =>
          if (negb reordered && (argNum <? length a)%nat)%bool
          then extra (drop argNum a) else ""
      | _ => "%!(NOVERB)"
      end
  | String c rest =>
      match st with
      | Lit =>
          if Ascii.eqb c "%" then doPrintf rest Verb argNum reordered a
          else String c (doPrintf rest Lit argNum reordered a)
      | Verb =>
          if Ascii.eqb c "%" then String "%" (doPrintf rest Lit argNum reordered a)
          else if Ascii.eqb c "[" then doPrintf rest (InIndex 0) argNum true a
          else printArg c (a !! argNum) +:+ doPrintf rest Lit (S argNum) reordered a
      | InIndex n =>
          if is_digit c then doPrintf rest (InIndex (10 * n + digit c)) argNum reordered a
          else if Ascii.eqb c "]" then
            doPrintf rest
              (AfterIndex (if ((1 <=? n)%nat && (n <=? length a)%nat)%bool
                           then Some (n - 1) else None))
              argNum reordered a
          else "%!(BADINDEX)" +:+ doPrintf rest Lit argNum reordered a
      | AfterIndex ix =>
          if Ascii.eqb c "%" then String "%" (doPrintf rest Lit argNum reordered a)
          else match ix with
               | Some i => printArg c (a !! i) +:+ doPrintf rest Lit (S i) reordered a
               | None => "%!" +:+ String c "(BADINDEX)"
                           +:+ doPrintf rest Lit (S argNum) reordered a
               end
      end
  end.

(** [fmt.Sprintf(format, a...)] *)
Definition Sprintf (format : string) (a : list string) : string :=
  doPrintf format Lit 0 false a.

End Fmt.

(** [strconv.Itoa] *)
Definition Itoa (i : Z) : string := NilZero.string_of_int (Z.to_int i).

(** ** Query builder *)

(** [buildQuery], list.go 271-278 *)
Definition buildQuery (search : string) : string :=
  let queryString := Fmt.Sprintf
    "name like %%%[1]v%% or owner like %%%[1]v%% or cloud_provider like %%%[1]v%% or region like %%%[1]v%% or status like %%%[1]v%%"
    [search] in
  queryString.

(** The fields the predicate ranges over, and one substring clause. *)
Definition searchFields : list string :=
  ["name"; "owner"; "cloud_provider"; "region"; "status"].

Definition likeClause (term field : string) : string :=
  field +:+ " like %" +:+ term +:+ "%".

(** ** Data model *)

(** A Go [error] value, identified by its message. *)
Definition error : Type := string.

(** What a call that yields [(value, err)] gives back. *)
Inductive result (A : Type) : Type :=
| Ok (a : A)
| Err (err : error).
Arguments Ok {A} a.
Arguments Err {A} err.

(** [models.KafkaRequestable]: the accessors the command reads.  Each one
    returns a pointer; [None] is the nil pointer. *)
Record KafkaRequestable : Type := {
  GetId : option string;
  GetName : option string;
  GetOwner : option string;
  GetStatus : option string;
  GetCloudProvider : option string;
  GetRegion : option string;
  GetClusterId : option string
}.

(** [models.KafkaRequestListable], the page the instance API answers with. *)
Record KafkaRequestList : Type := {
  GetItems : list KafkaRequestable;
  GetKind : option string;
  GetPage : option Z;
  GetSize : option Z;
  GetTotal : option Z
}.

(** [v1.Cluster] of ocm-sdk-go; an attribute that is not set reads as the
    zero value. *)
Record Cluster : Type := {
  cluster_id : string;
  cluster_name : string
}.

(** The accessors [ID] and [Name] of ocm-sdk-go's [Cluster] take a pointer
    receiver and test it: on the nil pointer ([None]) they return the zero
    value of the attribute. *)
Definition Cluster_ID (o : option Cluster) : string :=
  match o with Some c => cluster_id c | None => "" end.

Definition Cluster_Name (o : option Cluster) : string :=
  match o with Some c => cluster_name c | None => "" end.

(** [kafkaRow], list.go 33-42 *)
Record kafkaRow : Type := {
  ID : string;
  Name : string;
  Owner : string;
  Status : string;
  CloudProvider : string;
  Region : string;
  OpenshiftCluster : string
}.

(** The request of the generated instance client that [runList] builds
    stage by stage ([GetKafkas], [Page], [Size], [Search]). *)
Record ApiGetKafkasRequest : Type := {
  req_page : option string;
  req_size : option string;
  req_search : option string
}.

Definition GetKafkas : ApiGetKafkasRequest :=
  {| req_page := None; req_size := None; req_search := None |}.
Definition Page (a : ApiGetKafkasRequest) (p : string) : ApiGetKafkasRequest :=
  {| req_page := Some p; req_size := req_size a; req_search := req_search a |}.
Definition Size (a : ApiGetKafkasRequest) (n : string) : ApiGetKafkasRequest :=
  {| req_page := req_page a; req_size := Some n; req_search := req_search a |}.
Definition Search (a : ApiGetKafkasRequest) (q : string) : ApiGetKafkasRequest :=
  {| req_page := req_page a; req_size := req_size a; req_search := Some q |}.

(** The request configuration of the Kiota client's [Get]: its query
    parameters.  [None] at a call is the nil configuration. *)
Record KafkasGetRequestConfiguration : Type := {
  q_page : option string;
  q_size : option string;
  q_search : option string;
  q_orderBy : option string
}.

(** The Kiota request adapter, built around the bearer token. *)
Record RequestAdapter : Type := { adapter_token : string }.

(** [conn.API().GetConfig()] *)
Record Connection : Type := { AccessToken : string }.

(** The persisted session state and the entry selected in it. *)
Record ServiceConfig : Type := { KafkaID : string }.
Record Context : Type := {
  CurrentContext : string;
  Contexts : list (string * ServiceConfig)
}.

(** The arguments of [clustermgmt.GetClusterListWithSearchParams] after
    the factory. *)
Record ClusterListParams : Type := {
  cl_url : string;
  cl_token : string;
  cl_search : string;
  cl_page : Z;
  cl_size : Z
}.

(** The collaborators of the command: the factory [opts.f] and the
    packages the command calls into.  Each field is what the call answers;
    the command itself is deterministic in them. *)
Record Factory : Type := {
  f_Connection : result Connection;
  f_MustLocalize : string → list (string * string) → string;
  f_ServiceContext_Load : result Context;
  http_NewNetHttpRequestAdapter : string → result RequestAdapter;
  kiota_Kafkas_Get :
    option RequestAdapter → option KafkasGetRequestConfiguration →
    result KafkaRequestList;
  clustermgmt_GetClusterListWithSearchParams :
    ClusterListParams → result (list Cluster);
  contextutil_GetCurrentContext : Context → result ServiceConfig;
  dump_Formatted : string → KafkaRequestList → option error
}.

(** [options], list.go 44-53 *)
Record options : Type := {
  outputFormat : string;
  page : Z;
  limit : Z;
  search : string;
  accessToken : string;
  clusterManagementApiUrl : string;
  f : Factory
}.

(** What the command does to the outside, in order. *)
Inductive event : Type :=
| CallConnection
| LogDebug (msg : string)
| CallNewAdapter (token : string)
| Stdout (text : string)
| CallKafkasGet
    (adapter : option RequestAdapter)
    (config : option KafkasGetRequestConfiguration)
| LogInfo (msg : string)
| CallGetClusterList (params : ClusterListParams)
| CallServiceContextLoad
| CallGetCurrentContext (svcContext : Context)
| PrintTable (rows : list kafkaRow)
| PrintFormatted (format : string) (data : KafkaRequestList).

(** How [runList] ends: it returns an error value (nil is [None]), or a
    nil pointer is dereferenced. *)
Inductive outcome : Type :=
| Return (err : option error)
| Panic.

(** ** Commands: effects so far, and either the way the function was left
    or the value to go on with *)

Definition Cmd (A : Type) : Type := list event * (outcome + A).

Global Instance Cmd_ret : MRet Cmd := λ A a, ([], inr a).

Global Instance Cmd_bind : MBind Cmd := λ A B f m,
  let '(before, r) := m in
  match r with
  | inl o => (before, inl o)
  | inr a => let '(after, r') := f a in (before ++ after, r')
  end.

Definition emit (e : event) : Cmd unit := ([e], inr tt).

(** [return err] *)
Definition leave {A : Type} (err : option error) : Cmd A := ([], inl (Return err)).

(** A collaborator's call, recorded. *)
Definition call {A : Type} (e : event) (r : A) : Cmd A := ([e], inr r).

(** [if err != nil { return err }] *)
Definition orReturn {A : Type} (r : result A) : Cmd A :=
  match r with
  | Ok a => mret a
  | Err err => leave (Some err)
  end.

(** A pointer dereference inside a command. *)
Definition orPanic {A : Type} (r : option A) : Cmd A :=
  match r with
  | Some a => mret a
  | None => ([], inl Panic)
  end.

(** The command run as a function body that falls off its end with
    [return nil]. *)
Definition run (c : Cmd unit) : list event * outcome :=
  (c.1, match c.2 with inl o => o | inr _ => Return None end).

Definition nl : string := String (ascii_of_nat 10) "".

(** An effectful helper that returns to its caller. *)
Definition perform {A : Type} (p : list event * A) : Cmd A := (p.1, inr p.2).

(** Modelled from the spec: [dump.EmptyFormat], the output-format selector
    of the table; the empty string means the table. *)
Definition EmptyFormat : string := "".

(** ** The command *)

Section Command.

(** [icon.Emoji]: the glyph or its fallback, as the platform has it. *)
Variable Emoji : string → string → string.

(** [int(cmdutil.ConvertPageValueToInt32(build.DefaultPageNumber))] *)
Variable DefaultPageNumber : Z.

(** The order in which a [range] over a map visits its keys; Go leaves
    it unspecified. *)
Variable mapRange : gset string → list string.

(** One turn of the loop of [createSearchString], list.go 262-266 *)
Definition appendClause (st : string * Z) (id : string) : string * Z :=
  let '(searchString, index) := st in
  let searchString :=
    if decide (index > 0)%Z then searchString +:+ " or "
    else searchString in
  let searchString := searchString +:+ Fmt.Sprintf "id = '%s'" [id] in
  (searchString, (index + 1)%Z).

(** [createSearchString], list.go 258-269 *)
Definition createSearchString (idSet : gset string) : string :=
  (foldl appendClause ("", 0%Z) (mapRange idSet)).1.

(** The first loop of [getClusterIdMapFromKafkas]: the map used as a
    set of the cluster ids that occur. *)
Definition collectClusterIds (kafkas : list KafkaRequestable) : gset string :=
  foldl
    (λ kafkaClusterIds kafka,
       match GetClusterId kafka with
       | Some clusterId => {[clusterId]} ∪ kafkaClusterIds
       | None => kafkaClusterIds
       end)
    ∅ kafkas.

(** [getClusterIdMapFromKafkas], list.go 228-256 *)
Definition getClusterIdMapFromKafkas (opts : options)
    (kafkas : list KafkaRequestable)
    : list event * result (gmap string Cluster) :=
  let kafkaClusterIds := collectClusterIds kafkas in
  let idToCluster : gmap string Cluster := ∅ in
  if decide (size kafkaClusterIds = 0) then ([], Ok idToCluster)
  else
    let params :=
      {| cl_url := clusterManagementApiUrl opts;
         cl_token := accessToken opts;
         cl_search := createSearchString kafkaClusterIds;
         cl_page := DefaultPageNumber;
         cl_size := Z.of_nat (size kafkaClusterIds) |} in
    match clustermgmt_GetClusterListWithSearchParams (f opts) params with
    | Err err => ([CallGetClusterList params], Err err)
    | Ok clusterList =>
        ([CallGetClusterList params],
         Ok (foldl
               (λ idToCluster cluster,
                  <[Cluster_ID (Some cluster) := cluster]> idToCluster)
               idToCluster clusterList))
    end.

(** The body of the loop of [mapResponseItemsToRows], list.go 198-222;
    [None] is a nil pointer dereferenced. *)
Definition rowOf (opts : options) (selectedId : string)
    (clusterIdMap : gmap string Cluster) (k : KafkaRequestable)
    : option kafkaRow :=
  name ← GetName k;
  id ← GetId k;
  let name :=
    if decide (id = selectedId)
    then Fmt.Sprintf "%s %s" [name; Emoji "✔" "(current)"]
    else name in
  let openshiftCluster :=
    match GetClusterId k with
    | Some clusterId =>
        let cluster := clusterIdMap !! clusterId in
        Fmt.Sprintf "%v (%v)" [Cluster_Name cluster; Cluster_ID cluster]
    | None =>
        f_MustLocalize (f opts) "kafka.list.output.openshiftCluster.redhat" []
    end in
  owner ← GetOwner k;
  status ← GetStatus k;
  cloudProvider ← GetCloudProvider k;
  region ← GetRegion k;
  Some {| ID := id;
          Name := name;
          Owner := owner;
          Status := status;
          CloudProvider := cloudProvider;
          Region := region;
          OpenshiftCluster := openshiftCluster |}.

(** [mapResponseItemsToRows], list.go 194-226 *)
Definition mapResponseItemsToRows (opts : options)
    (kafkas : list KafkaRequestable) (selectedId : string)
    (clusterIdMap : gmap string Cluster) : option (list kafkaRow) :=
  mapM (rowOf opts selectedId clusterIdMap) kafkas.

(** The request [a] that [runList] prepares, list.go 120-128, with the
    debug line logged on the way. *)
Definition prepareRequest (opts : options) : Cmd ApiGetKafkasRequest :=
  let a := GetKafkas in
  let a := Page a (Itoa (page opts)) in
  let a := Size a (Itoa (limit opts)) in
  if decide (search opts ≠ "") then
    let query := buildQuery (search opts) in
    emit (LogDebug (f_MustLocalize (f opts)
            "kafka.list.log.debug.filteringKafkaList" [("Search", query)]));;
    mret (Search a query)
  else mret a.

(** [runList] up to the fetched page, list.go 113-150 *)
Definition fetchPage (opts : options) : Cmd KafkaRequestList :=
  conn ← call CallConnection (f_Connection (f opts)) ≫= orReturn;
  let api := conn in
  a ← prepareRequest opts;
  let tokenProvider := AccessToken api in
  r ← call (CallNewAdapter tokenProvider)
           (http_NewNetHttpRequestAdapter (f opts) tokenProvider);
  adapter ← match r with
            | Ok adapter => mret (Some adapter)
            | Err err =>
                emit (Stdout (Fmt.Sprintf
                        ("Error creating request adapter: %v" +:+ nl) [err]));;
                mret None
            end;
  emit (Stdout ("+++ Using Kiota client" +:+ nl));;
  call (CallKafkasGet adapter None)
       (kiota_Kafkas_Get (f opts) adapter None) ≫= orReturn.

(** [runList] from the fetched page on, list.go 158-191 *)
Definition presentPage (opts : options) (kiotaResponse : KafkaRequestList)
    : Cmd unit :=
  if decide (length (GetItems kiotaResponse) = 0 ∧ outputFormat opts = "") then
    emit (LogInfo (f_MustLocalize (f opts)
            "kafka.common.log.info.noKafkaInstances" []));;
    leave None
  else
    clusterIdMap ← perform
      (getClusterIdMapFromKafkas opts (GetItems kiotaResponse)) ≫= orReturn;
    if decide (outputFormat opts = EmptyFormat) then
      svcContext ← call CallServiceContextLoad
                        (f_ServiceContext_Load (f opts)) ≫= orReturn;
      currCtx ← call (CallGetCurrentContext svcContext)
                     (contextutil_GetCurrentContext (f opts) svcContext)
                ≫= orReturn;
      rows ← orPanic
        (if decide (KafkaID currCtx ≠ "") then
           mapResponseItemsToRows opts (GetItems kiotaResponse)
             (KafkaID currCtx) clusterIdMap
         else
           mapResponseItemsToRows opts (GetItems kiotaResponse)
             "-" clusterIdMap);
      emit (PrintTable rows);;
      emit (LogInfo "")
    else
      r ← call (PrintFormatted (outputFormat opts) kiotaResponse)
               (dump_Formatted (f opts) (outputFormat opts) kiotaResponse);
      leave r.

(** [runList], list.go 111-192: what it does and how it ends. *)
Definition runList (opts : options) : list event * outcome :=
  run (kiotaResponse ← fetchPage opts; presentPage opts kiotaResponse).

End Command.

(** ** The command's entry *)

Section Entry.

Variable Emoji : string → string → string.
Variable DefaultPageNumber : Z.
Variable mapRange : gset string → list string.

(** [flagutil.IsValidInput], [flagutil.ValidOutputFormats] and
    [flagutil.InvalidValueError] *)
Variable IsValidInput : string → list string → bool.
Variable ValidOutputFormats : list string.
Variable InvalidValueError : string → string → list string → error.

(** [Validator.ValidateSearchInput], given the validator's localizer; nil
    is [None]. *)
Variable ValidateSearchInput :
  (string → list (string * string) → string) → string → option error.

(** The [RunE] of [NewListCommand], list.go 67-81 *)
Definition RunE (opts : options) : list event * outcome :=
  if bool_decide (outputFormat opts ≠ "")
     && negb (IsValidInput (outputFormat opts) ValidOutputFormats)
  then
    ([], Return (Some (InvalidValueError "output" (outputFormat opts)
                         ValidOutputFormats)))
  else
    let validator := f_MustLocalize (f opts) in
    match ValidateSearchInput validator (search opts) with
    | Some err => ([], Return (Some err))
    | None => runList Emoji DefaultPageNumber mapRange opts
    end.

End Entry.

(** ** Vocabulary of the statements *)

(** One equality clause of the cluster lookup. *)
Definition idClause (id : string) : string := "id = '" +:+ id +:+ "'".

(** Some instance of the page refers to cluster [c]. *)
Definition references (kafkas : list KafkaRequestable) (c : string) : Prop :=
  ∃ k, k ∈ kafkas ∧ GetClusterId k = Some c.

(** The display name carries the marker of the current instance. *)
Definition marked (Emoji : string → string → string)
    (name : string) (r : kafkaRow) : Prop :=
  Name r = name +:+ " " +:+ Emoji "✔" "(current)".

(** The attributes that the data model makes mandatory are present. *)
Definition complete (k : KafkaRequestable) : Prop :=
  is_Some (GetId k) ∧ is_Some (GetName k) ∧ is_Some (GetOwner k)
  ∧ is_Some (GetStatus k) ∧ is_Some (GetCloudProvider k)
  ∧ is_Some (GetRegion k).

(** The label of an instance that runs on no cluster of its own. *)
Definition hostedLabel (opts : options) : string :=
  f_MustLocalize (f opts) "kafka.list.output.openshiftCluster.redhat" [].

(** The events of the fetch stage; its one request goes out with the nil
    configuration. *)
Definition fetchEvent (e : event) : Prop :=
  match e with
  | CallConnection | LogDebug _ | CallNewAdapter _ | Stdout _
  | CallKafkasGet _ None => True
  | _ => False
  end.

(** The configurations of the requests sent to the instance API. *)
Definition instanceRequests (t : list event)
    : list (option KafkasGetRequestConfiguration) :=
  omap (λ e, match e with
             | CallKafkasGet _ config => Some config
             | _ => None
             end) t.

(** The identifier the rows are compared with: the session's selection,
    or the sentinel when the session has none. *)
Definition selectedOf (currCtx : ServiceConfig) : string :=
  if decide (KafkaID currCtx ≠ "") then KafkaID currCtx else "-".

(** The lookup request the resolver makes for a page. *)
Definition lookupParams (DefaultPageNumber : Z)
    (mapRange : gset string → list string) (opts : options)
    (kafkas : list KafkaRequestable) : ClusterListParams :=
  {| cl_url := clusterManagementApiUrl opts;
     cl_token := accessToken opts;
     cl_search := createSearchString mapRange (collectClusterIds kafkas);
     cl_page := DefaultPageNumber;
     cl_size := Z.of_nat (size (collectClusterIds kafkas)) |}.

(** The index built from a lookup response. *)
Definition indexOf (clusterList : list Cluster) : gmap string Cluster :=
  foldl (λ idToCluster cluster,
           <[Cluster_ID (Some cluster) := cluster]> idToCluster)
        ∅ clusterList.

(** The message logged for an empty page. *)
Definition noInstancesMessage (opts : options) : string :=
  f_MustLocalize (f opts) "kafka.common.log.info.noKafkaInstances" [].

(** ** Sample inputs *)

(** [icon.Emoji] where the glyph is shown. *)
Definition glyph (emoji fallback : string) : string := emoji.

Definition instance (id name : string) (cluster : option string)
    : KafkaRequestable :=
  {| GetId := Some id;
     GetName := Some name;
     GetOwner := Some "ada";
     GetStatus := Some "ready";
     GetCloudProvider := Some "aws";
     GetRegion := Some "us-east-1";
     GetClusterId := cluster |}.

Definition pageOf (items : list KafkaRequestable) : KafkaRequestList :=
  {| GetItems := items;
     GetKind := Some "KafkaRequestList";
     GetPage := Some 1%Z;
     GetSize := Some (Z.of_nat (length items));
     GetTotal := Some (Z.of_nat (length items)) |}.

(** The page of the specification's example. *)
Definition samplePage : KafkaRequestList :=
  pageOf [instance "k1" "alpha" (Some "c1");
          instance "k2" "beta" (Some "c1");
          instance "k3" "gamma" None].

Definition prodCluster : Cluster :=
  {| cluster_id := "c1"; cluster_name := "prod-cluster" |}.

(** Collaborators that answer with the given adapter, page, clusters and
    session selection; the localizer answers with the message id. *)
Definition sampleFactory (adapter : result RequestAdapter)
    (page : KafkaRequestList) (clusters : result (list Cluster))
    (selected : string) : Factory :=
  {| f_Connection := Ok {| AccessToken := "token" |};
     f_MustLocalize := λ id _, id;
     f_ServiceContext_Load := Ok {| CurrentContext := "dev"; Contexts := [] |};
     http_NewNetHttpRequestAdapter := λ _, adapter;
     kiota_Kafkas_Get := λ _ _, Ok page;
     clustermgmt_GetClusterListWithSearchParams := λ _, clusters;
     contextutil_GetCurrentContext := λ _, Ok {| KafkaID := selected |};
     dump_Formatted := λ _ _, None |}.

Definition sampleOptions (format term : string) (factory : Factory) : options :=
  {| outputFormat := format;
     page := 2;
     limit := 5;
     search := term;
     accessToken := "";
     clusterManagementApiUrl := "";
     f := factory |}.

Definition goodAdapter : result RequestAdapter :=
  Ok {| adapter_token := "token" |}.

(** The collaborators of the specification's example and its rows. *)
Definition exampleFactory : Factory :=
  sampleFactory goodAdapter samplePage (Ok [prodCluster]) "k2".

Definition exampleRow (id name cluster : string) : kafkaRow :=
  {| ID := id;
     Name := name;
     Owner := "ada";
     Status := "ready";
     CloudProvider := "aws";
     Region := "us-east-1";
     OpenshiftCluster := cluster |}.

Definition exampleRows : list kafkaRow :=
  [exampleRow "k1" "alpha" "prod-cluster (c1)";
   exampleRow "k2" ("beta" +:+ " " +:+ glyph "✔" "(current)") "prod-cluster (c1)";
   exampleRow "k3" "gamma" "kafka.list.output.openshiftCluster.redhat"].

(** The lookup requests among the events. *)
Definition lookupRequests (t : list event) : list ClusterListParams :=
  omap (λ e, match e with
             | CallGetClusterList params => Some params
             | _ => None
             end) t.

(** The lines written to the debug log. *)
Definition debugLines (t : list event) : list string :=
  omap (λ e, match e with LogDebug msg => Some msg | _ => None end) t.

(** An instance that the instance API sent without a name. *)
Definition namelessInstance : KafkaRequestable :=
  {| GetId := Some "k9";
     GetName := None;
     GetOwner := Some "ada";
     GetStatus := Some "ready";
     GetCloudProvider := Some "aws";
     GetRegion := Some "us-east-1";
     GetClusterId := None |}.

(** A sample validation of the entry: json and yaml are the formats, a
    term is refused when it holds a quote. *)
Definition sampleIsValidInput (input : string) (valid : list string) : bool :=
  bool_decide (input ∈ valid).

Definition sampleInvalidValueError (flag value : string)
    (valid : list string) : error :=
  "invalid value " +:+ value +:+ " for --" +:+ flag.

Definition hasQuote (s : string) : bool :=
  existsb (Ascii.eqb "'") (list_ascii_of_string s).

Definition sampleValidateSearchInput
    (localize : string → list (string * string) → string) (term : string)
    : option error :=
  if hasQuote term then Some (localize "kafka.validation.error.illegalSearchValue" [])
  else None.

(** Collaborators that fail: no connection, a failing instance API, an
    unreadable session. *)
Definition offlineFactory : Factory :=
  {| f_Connection := Err "not logged in";
     f_MustLocalize := λ id _, id;
     f_ServiceContext_Load := Ok {| CurrentContext := "dev"; Contexts := [] |};
     http_NewNetHttpRequestAdapter := λ _, goodAdapter;
     kiota_Kafkas_Get := λ _ _, Ok samplePage;
     clustermgmt_GetClusterListWithSearchParams := λ _, Ok [prodCluster];
     contextutil_GetCurrentContext := λ _, Ok {| KafkaID := "k2" |};
     dump_Formatted := λ _ _, None |}.


Definition brokenSessionFactory : Factory :=
  {| f_Connection := Ok {| AccessToken := "token" |};
     f_MustLocalize := λ id _, id;
     f_ServiceContext_Load := Err "context file unreadable";
     http_NewNetHttpRequestAdapter := λ _, goodAdapter;
     kiota_Kafkas_Get := λ _ _, Ok samplePage;
     clustermgmt_GetClusterListWithSearchParams := λ _, Ok [prodCluster];
     contextutil_GetCurrentContext := λ _, Ok {| KafkaID := "k2" |};
     dump_Formatted := λ _ _, None |}.

(** A second cluster that answers to the identifier of the first. *)
Definition renamedCluster : Cluster :=
  {| cluster_id := "c1"; cluster_name := "prod-renamed" |}.



(** * Properties *)

(** String appends are kept folded by the library; these equations
    normalise them. *)
Lemma append_cons (x : ascii) (a b : string) :
  String x a +:+ b = String x (a +:+ b).
Proof. reflexivity. Qed.

Lemma append_nil_l (b : string) : "" +:+ b = b.
Proof. reflexivity. Qed.

Lemma append_assoc (a b c : string) : (a +:+ b) +:+ c = a +:+ (b +:+ c).
Proof.
  induction a as [|x a IH]; rewrite ?append_nil_l, ?append_cons; congruence.
Qed.

Lemma append_nil_r (a : string) : a +:+ "" = a.
Proof.
  induction a as [|x a IH]; rewrite ?append_nil_l, ?append_cons; congruence.
Qed.

Ltac str_norm :=
  repeat (rewrite ?append_assoc, ?append_cons, ?append_nil_l, ?append_nil_r).

(** Runs the formats of the goal and normalises the appends left over. *)
Ltac fmt_eval := unfold Fmt.Sprintf; lazy -[String.append]; str_norm.

Example buildQuery_foo :
  buildQuery "foo" =
  "name like %foo% or owner like %foo% or cloud_provider like %foo% or region like %foo% or status like %foo%".
Proof. reflexivity. Qed.

(** C5. For every search term [S] (in particular every non-empty one) the
    predicate built by the query builder is the [" or "]-join of exactly
    five substring clauses [<field> like %S%], one for each of name, owner,
    cloud_provider, region and status in that order, and [S] is spliced in
    as it is: the clauses contain [S] itself, not an escaped form of it. *)
Theorem buildQuery_five_like_clauses (S : string) :
  buildQuery S = String.concat " or " (map (likeClause S) searchFields)
  ∧ length (map (likeClause S) searchFields) = 5
  ∧ map (likeClause S) searchFields =
      [ "name like %" +:+ S +:+ "%";
        "owner like %" +:+ S +:+ "%";
        "cloud_provider like %" +:+ S +:+ "%";
        "region like %" +:+ S +:+ "%";
        "status like %" +:+ S +:+ "%" ].
Proof.
  split; [|split; reflexivity].
  unfold buildQuery. fmt_eval. reflexivity.
Qed.


(** ** Cluster resolver *)

Lemma Sprintf_idClause (id : string) :
  Fmt.Sprintf "id = '%s'" [id] = idClause id.
Proof. unfold idClause. fmt_eval. reflexivity. Qed.

Lemma join_idClauses (x : string) (l : list string) :
  String.concat " or " (idClause x :: map idClause l) =
  idClause x +:+ foldr (λ id r, " or " +:+ idClause id +:+ r) "" l.
Proof.
  revert x. induction l as [|y l IH]; intros x.
  - simpl. by rewrite append_nil_r.
  - change (String.concat " or " (idClause x :: map idClause (y :: l)))
      with (idClause x +:+ " or " +:+ String.concat " or " (idClause y :: map idClause l)).
    by rewrite IH.
Qed.

Lemma collectClusterIds_foldl (kafkas : list KafkaRequestable)
    (acc : gset string) (c : string) :
  c ∈ foldl
        (λ kafkaClusterIds kafka,
           match GetClusterId kafka with
           | Some clusterId => {[clusterId]} ∪ kafkaClusterIds
           | None => kafkaClusterIds
           end) acc kafkas
  ↔ c ∈ acc ∨ references kafkas c.
Proof.
  unfold references. revert acc.
  induction kafkas as [|k kafkas IH]; intros acc; simpl.
  - split; [auto|]. intros [?|(k & Hk & _)]; [done|]. by apply elem_of_nil in Hk.
  - rewrite IH. destruct (GetClusterId k) as [c'|] eqn:Hc.
    + rewrite elem_of_union, elem_of_singleton. split.
      * intros [[->|?]|(k' & ? & ?)]; [right|by left|right].
        -- exists k. split; [left|done].
        -- exists k'. split; [by right|done].
      * intros [?|(k' & Hin & Hk')]; [left; by right|].
        apply elem_of_cons in Hin as [->|Hin].
        -- left; left. congruence.
        -- right. eauto.
    + split.
      * intros [?|(k' & ? & ?)]; [by left|right]. exists k'. split; [by right|done].
      * intros [?|(k' & Hin & Hk')]; [by left|].
        apply elem_of_cons in Hin as [->|Hin]; [congruence|]. right. eauto.
Qed.

Lemma elem_of_collectClusterIds (kafkas : list KafkaRequestable) (c : string) :
  c ∈ collectClusterIds kafkas ↔ references kafkas c.
Proof.
  unfold collectClusterIds. rewrite collectClusterIds_foldl. split.
  - intros [H|H]; [by apply elem_of_empty in H|done].
  - by right.
Qed.

Lemma append_quote_inj (a b : string) : a +:+ "'" = b +:+ "'" → a = b.
Proof.
  revert b. induction a as [|x a IH]; intros [|y b]; rewrite ?append_cons, ?append_nil_l.
  - done.
  - intros [= _ H]. by destruct b.
  - intros [= _ H]. by destruct a.
  - intros [= -> H]. f_equal. by apply IH.
Qed.

Global Instance idClause_inj : Inj (=) (=) idClause.
Proof.
  intros a b H. unfold idClause in H.
  apply String.app_inj in H. by apply append_quote_inj.
Qed.

Lemma map_fmap {A B : Type} (g : A → B) (l : list A) : map g l = g <$> l.
Proof. reflexivity. Qed.

Section Resolver.

Variable DefaultPageNumber : Z.
Variable mapRange : gset string → list string.

Lemma appendClause_loop (l : list string) (acc : string) (index : Z) :
  (index > 0)%Z →
  (foldl appendClause (acc, index) l).1 =
  acc +:+ foldr (λ id r, " or " +:+ idClause id +:+ r) "" l.
Proof.
  revert acc index. induction l as [|id l IH]; intros acc index Hpos; simpl.
  - by rewrite append_nil_r.
  - destruct (decide (index > 0)%Z) as [_|]; [|done].
    rewrite IH by lia. rewrite Sprintf_idClause. by rewrite !append_assoc.
Qed.

(** The search string is the [" or "]-join of one clause per key, in the
    order the map is ranged over. *)
Lemma createSearchString_join (idSet : gset string) :
  createSearchString mapRange idSet =
  String.concat " or " (map idClause (mapRange idSet)).
Proof.
  unfold createSearchString. destruct (mapRange idSet) as [|x l]; [done|].
  simpl foldl. destruct (decide (0 > 0)%Z) as [?|_]; [lia|].
  rewrite appendClause_loop by lia.
  simpl map. by rewrite append_nil_l, Sprintf_idClause, join_idClauses.
Qed.

Lemma collectClusterIds_empty (kafkas : list KafkaRequestable) :
  (∀ c, ¬ references kafkas c) → collectClusterIds kafkas = ∅.
Proof.
  intros Hno. apply set_eq. intros c.
  rewrite elem_of_collectClusterIds, elem_of_empty. naive_solver.
Qed.

(** C2. Whatever the order in which the id set is ranged over: when no
    instance of the page has a cluster reference the resolver issues no
    lookup request and returns the empty index; otherwise it issues
    exactly one lookup request, whose predicate is the [" or "]-join of
    the clauses [id = '<c>'] of a duplicate-free list of exactly the
    cluster ids referenced on the page, so that each referenced id has
    exactly one clause however many instances refer to it; the request
    asks for the first page, sized to the number of distinct ids. *)
Theorem cluster_lookup_deduplicated (opts : options)
    (kafkas : list KafkaRequestable) :
  (∀ s, mapRange s ≡ₚ elements s) →
  ((∀ c, ¬ references kafkas c) →
     getClusterIdMapFromKafkas DefaultPageNumber mapRange opts kafkas
     = ([], Ok ∅))
  ∧ ((∃ c, references kafkas c) →
     ∃ ids : list string,
       NoDup ids
       ∧ (∀ c, c ∈ ids ↔ references kafkas c)
       ∧ (∀ c, references kafkas c →
            count_occ string_dec (map idClause ids) (idClause c) = 1)
       ∧ (getClusterIdMapFromKafkas DefaultPageNumber mapRange opts kafkas).1
         = [CallGetClusterList
              {| cl_url := clusterManagementApiUrl opts;
                 cl_token := accessToken opts;
                 cl_search := String.concat " or " (map idClause ids);
                 cl_page := DefaultPageNumber;
                 cl_size := Z.of_nat (length ids) |}]).
Proof.
  intros Hrange. split.
  - intros Hno. unfold getClusterIdMapFromKafkas.
    rewrite (collectClusterIds_empty _ Hno).
    by destruct (decide (size (∅ : gset string) = 0)) as [_|[]].
  - intros [c0 Hc0]. exists (mapRange (collectClusterIds kafkas)).
    assert (Hmem : ∀ c, c ∈ mapRange (collectClusterIds kafkas)
                        ↔ references kafkas c).
    { intros c. by rewrite Hrange, elem_of_elements, elem_of_collectClusterIds. }
    assert (Hnodup : NoDup (mapRange (collectClusterIds kafkas))).
    { rewrite Hrange. apply NoDup_elements. }
    split; [done|]. split; [done|]. split.
    + intros c Hc. apply NoDup_count_occ'.
      * rewrite map_fmap. apply NoDup_ListNoDup, (NoDup_fmap_2 idClause), Hnodup.
      * rewrite map_fmap. apply list_elem_of_In.
        apply (list_elem_of_fmap_2 idClause), Hmem, Hc.
    + unfold getClusterIdMapFromKafkas.
      destruct (decide (size (collectClusterIds kafkas) = 0)) as [Hz|Hnz].
      { apply size_empty_inv in Hz.
        apply elem_of_collectClusterIds in Hc0. rewrite Hz in Hc0.
        by apply elem_of_empty in Hc0. }
      rewrite createSearchString_join.
      replace (size (collectClusterIds kafkas))
        with (length (mapRange (collectClusterIds kafkas)))
        by (by rewrite Hrange).
      by destruct (clustermgmt_GetClusterListWithSearchParams _ _).
Qed.

End Resolver.

(** ** Row projector *)

Lemma Sprintf_marker (name m : string) :
  Fmt.Sprintf "%s %s" [name; m] = name +:+ " " +:+ m.
Proof. fmt_eval. reflexivity. Qed.

Lemma Sprintf_label (name id : string) :
  Fmt.Sprintf "%v (%v)" [name; id] = name +:+ " (" +:+ id +:+ ")".
Proof. fmt_eval. reflexivity. Qed.

Lemma append_length (a b : string) :
  String.length (a +:+ b) = String.length a + String.length b.
Proof.
  induction a as [|x a IH]; rewrite ?append_nil_l, ?append_cons; simpl; congruence.
Qed.

(** A marked name is never the bare name. *)
Lemma marked_name_differs (name m : string) : name +:+ " " +:+ m ≠ name.
Proof.
  intros H. apply (f_equal String.length) in H.
  rewrite append_length, append_cons in H. simpl in H. lia.
Qed.

Section Projector.

Variable Emoji : string → string → string.

(** The row of one instance, field by field. *)
Lemma rowOf_Some (opts : options) (selectedId : string)
    (clusterIdMap : gmap string Cluster) (k : KafkaRequestable) (r : kafkaRow) :
  rowOf Emoji opts selectedId clusterIdMap k = Some r →
  ∃ id name owner status cloudProvider region,
    GetId k = Some id ∧ GetName k = Some name ∧ GetOwner k = Some owner
    ∧ GetStatus k = Some status ∧ GetCloudProvider k = Some cloudProvider
    ∧ GetRegion k = Some region
    ∧ r = {| ID := id;
             Name := if decide (id = selectedId)
                     then name +:+ " " +:+ Emoji "✔" "(current)" else name;
             Owner := owner;
             Status := status;
             CloudProvider := cloudProvider;
             Region := region;
             OpenshiftCluster :=
               match GetClusterId k with
               | Some c =>
                   Cluster_Name (clusterIdMap !! c) +:+ " ("
                     +:+ Cluster_ID (clusterIdMap !! c) +:+ ")"
               | None => hostedLabel opts
               end |}.
Proof.
  unfold rowOf, hostedLabel.
  destruct (GetName k) as [name|]; [|done].
  destruct (GetId k) as [id|]; [|done].
  destruct (GetOwner k) as [owner|]; [|done].
  destruct (GetStatus k) as [status|]; [|done].
  destruct (GetCloudProvider k) as [cloudProvider|]; [|done].
  destruct (GetRegion k) as [region|]; [|done].
  simpl. intros [= <-].
  exists id, name, owner, status, cloudProvider, region.
  rewrite Sprintf_marker. repeat (split; [done|]).
  reflexivity.
Qed.

Lemma rowOf_complete (opts : options) (selectedId : string)
    (clusterIdMap : gmap string Cluster) (k : KafkaRequestable) :
  complete k → is_Some (rowOf Emoji opts selectedId clusterIdMap k).
Proof.
  intros ([id Hid] & [name Hname] & [owner Ho] & [status Hs] & [cp Hcp] & [rg Hr]).
  unfold rowOf. rewrite Hid, Hname, Ho, Hs, Hcp, Hr. simpl. eauto.
Qed.

(** The projector makes one row per instance, in the order of the page. *)
Lemma mapResponseItemsToRows_rows (opts : options)
    (kafkas : list KafkaRequestable) (selectedId : string)
    (clusterIdMap : gmap string Cluster) (rows : list kafkaRow) :
  mapResponseItemsToRows Emoji opts kafkas selectedId clusterIdMap = Some rows →
  length rows = length kafkas
  ∧ ∀ i k, kafkas !! i = Some k →
      ∃ r, rows !! i = Some r
           ∧ rowOf Emoji opts selectedId clusterIdMap k = Some r.
Proof.
  unfold mapResponseItemsToRows. intros H. apply mapM_Some_1 in H.
  split; [symmetry; by eapply Forall2_length|].
  intros i k Hk. destruct (Forall2_lookup_l _ _ _ _ _ H Hk) as (r & ? & ?). eauto.
Qed.

(** C8. In every projected row, the cluster label of an instance with a
    cluster reference [c] is the entry of the index at [c] formatted as
    ["<name> (<id>)"] (the name and id read off the looked-up cluster),
    and the label of an instance with no cluster reference is the
    localized hosted label, whatever the index holds: the same row comes
    out under every index. *)
Theorem cluster_label_of_row (opts : options)
    (kafkas : list KafkaRequestable) (selectedId : string)
    (clusterIdMap : gmap string Cluster) (rows : list kafkaRow) :
  mapResponseItemsToRows Emoji opts kafkas selectedId clusterIdMap = Some rows →
  ∀ i k, kafkas !! i = Some k →
    ∃ r, rows !! i = Some r
      ∧ match GetClusterId k with
        | Some c =>
            OpenshiftCluster r =
              Cluster_Name (clusterIdMap !! c) +:+ " ("
                +:+ Cluster_ID (clusterIdMap !! c) +:+ ")"
            ∧ ∀ cluster, clusterIdMap !! c = Some cluster →
                OpenshiftCluster r =
                  cluster_name cluster +:+ " (" +:+ cluster_id cluster +:+ ")"
        | None =>
            OpenshiftCluster r = hostedLabel opts
            ∧ ∀ otherMap, rowOf Emoji opts selectedId otherMap k = Some r
        end.
Proof.
  intros Hrows i k Hk.
  destruct (mapResponseItemsToRows_rows _ _ _ _ _ Hrows) as [_ Hrow].
  destruct (Hrow i k Hk) as (r & Hr & Hof). exists r. split; [done|].
  pose proof Hof as Hof'.
  apply rowOf_Some in Hof
    as (id & name & owner & status & cp & rg & Hid & Hname & Ho & Hs & Hcp & Hrg & ->).
  simpl. destruct (GetClusterId k) as [c|] eqn:Hc.
  - split; [done|]. by intros cluster ->.
  - split; [done|]. intros otherMap. rewrite <- Hof'.
    unfold rowOf. by rewrite Hc.
Qed.

(** C9. For a page whose instances have the mandatory attributes of the
    data model, the projector returns under every index, with one row per
    instance; the row of an instance whose cluster reference misses the
    index is there too, with the instance's identifier and the label
    [" ()"] that the nil cluster formats to. *)
Theorem lookup_miss_still_projects (opts : options)
    (kafkas : list KafkaRequestable) (selectedId : string)
    (clusterIdMap : gmap string Cluster) :
  Forall complete kafkas →
  ∃ rows,
    mapResponseItemsToRows Emoji opts kafkas selectedId clusterIdMap = Some rows
    ∧ length rows = length kafkas
    ∧ ∀ i k c,
        kafkas !! i = Some k → GetClusterId k = Some c →
        clusterIdMap !! c = None →
        ∃ r, rows !! i = Some r ∧ GetId k = Some (ID r)
             ∧ OpenshiftCluster r = " ()".
Proof.
  intros Hall.
  destruct (mapM_is_Some_2 (rowOf Emoji opts selectedId clusterIdMap) kafkas)
    as [rows Hrows].
  { eapply Forall_impl; [exact Hall|]. intros k Hk. by apply rowOf_complete. }
  exists rows. split; [done|].
  destruct (mapResponseItemsToRows_rows _ _ _ _ _ Hrows) as [Hlen Hrow].
  split; [done|]. intros i k c Hk Hc Hmiss.
  destruct (Hrow i k Hk) as (r & Hr & Hof). exists r. split; [done|].
  apply rowOf_Some in Hof
    as (id & name & owner & status & cp & rg & Hid & Hname & Ho & Hs & Hcp & Hrg & ->).
  simpl. by rewrite Hc, Hmiss.
Qed.

(** A row is marked exactly when its instance is the selected one. *)
Lemma rowOf_marker (opts : options) (selectedId : string)
    (clusterIdMap : gmap string Cluster) (k : KafkaRequestable) (r : kafkaRow) :
  rowOf Emoji opts selectedId clusterIdMap k = Some r →
  ∃ id name,
    GetId k = Some id ∧ GetName k = Some name ∧ ID r = id
    ∧ (marked Emoji name r ∨ Name r = name)
    ∧ (marked Emoji name r ↔ id = selectedId).
Proof.
  intros Hof.
  apply rowOf_Some in Hof
    as (id & name & owner & status & cp & rg & Hid & Hname & Ho & Hs & Hcp & Hrg & ->).
  exists id, name. unfold marked. simpl.
  destruct (decide (id = selectedId)) as [Heq|Hne].
  - repeat (split; [done|]). split; [by left|done].
  - repeat (split; [done|]). split; [by right|]. split; [|done].
    intros H. symmetry in H. by apply marked_name_differs in H.
Qed.

End Projector.

(** ** The command *)

Ltac cmd_unfold :=
  unfold mbind, Cmd_bind, mret, Cmd_ret, call, emit, leave, orReturn,
    orPanic, perform.

Lemma fetchPage_events (opts : options) : Forall fetchEvent (fetchPage opts).1.
Proof.
  unfold fetchPage, prepareRequest. cmd_unfold.
  destruct (f_Connection (f opts)) as [conn|e]; simpl; [|repeat constructor].
  destruct (decide (search opts ≠ "")); simpl;
    destruct (http_NewNetHttpRequestAdapter _ _); simpl;
    destruct (kiota_Kafkas_Get _ _ _); simpl.
  all: repeat constructor.
Qed.

(** What the index built from a response holds. *)
Lemma index_foldl_lookup (clusterList : list Cluster)
    (acc : gmap string Cluster) (c : string) (cluster : Cluster) :
  foldl (λ idToCluster cluster,
           <[Cluster_ID (Some cluster) := cluster]> idToCluster)
        acc clusterList !! c = Some cluster →
  acc !! c = Some cluster ∨ (cluster ∈ clusterList ∧ cluster_id cluster = c).
Proof.
  revert acc. induction clusterList as [|x l IH]; intros acc; simpl; [by left|].
  intros H. apply IH in H as [H|[H1 H2]].
  - rewrite lookup_insert in H. destruct (decide (cluster_id x = c)) as [Heq|Hne].
    + right. simplify_eq. split; [left|done].
    + by left.
  - right. split; [by right|done].
Qed.

Lemma index_foldl_is_Some (clusterList : list Cluster)
    (acc : gmap string Cluster) (c : string) :
  is_Some (acc !! c) ∨ (∃ cluster, cluster ∈ clusterList ∧ cluster_id cluster = c) →
  is_Some (foldl (λ idToCluster cluster,
                    <[Cluster_ID (Some cluster) := cluster]> idToCluster)
                 acc clusterList !! c).
Proof.
  revert acc. induction clusterList as [|x l IH]; intros acc; simpl.
  - intros [H|(cl & Hin & _)]; [done|]. by apply elem_of_nil in Hin.
  - intros H. apply IH. rewrite lookup_insert.
    destruct (decide (cluster_id x = c)) as [Heq|Hne]; [left; eauto|].
    destruct H as [H|(cl & Hin & Hcl)]; [by left|right].
    apply elem_of_cons in Hin as [->|Hin]; [done|]. eauto.
Qed.

Lemma indexOf_is_Some (clusterList : list Cluster) (c : string) :
  is_Some (indexOf clusterList !! c)
  ↔ ∃ cluster, cluster ∈ clusterList ∧ cluster_id cluster = c.
Proof.
  unfold indexOf. split.
  - intros [cl H]. apply index_foldl_lookup in H as [H|H]; [|eauto].
    by rewrite lookup_empty in H.
  - intros H. apply index_foldl_is_Some. by right.
Qed.

Lemma collectClusterIds_size (kafkas : list KafkaRequestable) :
  size (collectClusterIds kafkas) = 0 ↔ ∀ c, ¬ references kafkas c.
Proof.
  rewrite size_empty_iff. split.
  - intros H c Hc. apply elem_of_collectClusterIds in Hc.
    rewrite H in Hc. by apply elem_of_empty in Hc.
  - intros H c. rewrite elem_of_collectClusterIds, elem_of_empty. naive_solver.
Qed.

Section RunList.

Variable Emoji : string → string → string.
Variable DefaultPageNumber : Z.
Variable mapRange : gset string → list string.

Local Abbreviation resolve := (getClusterIdMapFromKafkas DefaultPageNumber mapRange).
Local Abbreviation present := (presentPage Emoji DefaultPageNumber mapRange).
Local Abbreviation params := (lookupParams DefaultPageNumber mapRange).

(** [runList] is the fetch followed by the presentation of its page. *)
Lemma runList_split (opts : options) :
  runList Emoji DefaultPageNumber mapRange opts =
  match fetchPage opts with
  | (t, inl o) => (t, o)
  | (t, inr resp) =>
      (t ++ (present opts resp).1,
       match (present opts resp).2 with
       | inl o => o
       | inr _ => Return None
       end)
  end.
Proof.
  unfold runList, run. cmd_unfold.
  destruct (fetchPage opts) as [t [o|resp]]; [done|].
  by destruct (present opts resp) as [t' [o|[]]].
Qed.

(** The two ways the resolver goes. *)
Lemma resolve_cases (opts : options) (kafkas : list KafkaRequestable) :
  resolve opts kafkas =
  if decide (size (collectClusterIds kafkas) = 0) then ([], Ok ∅)
  else
    ([CallGetClusterList (params opts kafkas)],
     match clustermgmt_GetClusterListWithSearchParams (f opts)
             (params opts kafkas) with
     | Err err => Err err
     | Ok clusterList => Ok (indexOf clusterList)
     end).
Proof.
  unfold getClusterIdMapFromKafkas, lookupParams, indexOf.
  destruct (decide _); [done|].
  by destruct (clustermgmt_GetClusterListWithSearchParams _ _).
Qed.

(** The presentation stage, case by case. *)
Lemma presentPage_cases (opts : options) (resp : KafkaRequestList) :
  present opts resp =
  if decide (length (GetItems resp) = 0 ∧ outputFormat opts = "") then
    ([LogInfo (noInstancesMessage opts)], inl (Return None))
  else
    match resolve opts (GetItems resp) with
    | (t, Err err) => (t, inl (Return (Some err)))
    | (t, Ok clusterIdMap) =>
        if decide (outputFormat opts = "") then
          match f_ServiceContext_Load (f opts) with
          | Err err => (t ++ [CallServiceContextLoad], inl (Return (Some err)))
          | Ok svcContext =>
              match contextutil_GetCurrentContext (f opts) svcContext with
              | Err err =>
                  (t ++ [CallServiceContextLoad;
                         CallGetCurrentContext svcContext],
                   inl (Return (Some err)))
              | Ok currCtx =>
                  match mapResponseItemsToRows Emoji opts (GetItems resp)
                          (selectedOf currCtx) clusterIdMap with
                  | None =>
                      (t ++ [CallServiceContextLoad;
                             CallGetCurrentContext svcContext],
                       inl Panic)
                  | Some rows =>
                      (t ++ [CallServiceContextLoad;
                             CallGetCurrentContext svcContext;
                             PrintTable rows; LogInfo ""],
                       inr tt)
                  end
              end
          end
        else
          (t ++ [PrintFormatted (outputFormat opts) resp],
           inl (Return (dump_Formatted (f opts) (outputFormat opts) resp)))
    end.
Proof.
  unfold presentPage, EmptyFormat, selectedOf, noInstancesMessage. cmd_unfold.
  destruct (decide (length (GetItems resp) = 0 ∧ outputFormat opts = ""));
    [done|].
  destruct (resolve opts (GetItems resp)) as [t [clusterIdMap|err]]; simpl;
    [|by rewrite app_nil_r].
  destruct (decide (outputFormat opts = "")); simpl; [|by rewrite app_nil_r].
  destruct (f_ServiceContext_Load (f opts)) as [svcContext|err]; simpl;
    [|by rewrite app_nil_r].
  destruct (contextutil_GetCurrentContext (f opts) svcContext)
    as [currCtx|err]; simpl; [|by rewrite app_nil_r].
  destruct (decide (KafkaID currCtx ≠ ""));
    destruct (mapResponseItemsToRows _ _ _ _ _); simpl;
    by rewrite app_nil_r.
Qed.

Lemma resolve_events (opts : options) (kafkas : list KafkaRequestable)
    (e : event) :
  e ∈ (resolve opts kafkas).1 → e = CallGetClusterList (params opts kafkas).
Proof.
  rewrite resolve_cases. destruct (decide _); simpl.
  - intros H. by apply elem_of_nil in H.
  - intros H. apply elem_of_cons in H as [->|H]; [done|]. by apply elem_of_nil in H.
Qed.

(** An empty page refers to no cluster, so nothing is looked up for it. *)
Lemma resolve_nil (opts : options) : resolve opts [] = ([], Ok ∅).
Proof. rewrite resolve_cases. by destruct (decide _) as [_|[]]. Qed.

(** C7. When the fetch yields an empty page: under the table format the
    command logs the one no-instances message, prints no table and returns
    nil; under a structured format it hands the (empty) page to the
    structured renderer and returns what the renderer returns.  Nothing but
    that message or rendering follows the fetch, and the fetch stage itself
    logs no information line and prints no table. *)
Theorem empty_page_presentation (opts : options) (t : list event)
    (resp : KafkaRequestList) :
  fetchPage opts = (t, inr resp) →
  GetItems resp = [] →
  Forall fetchEvent t
  ∧ (outputFormat opts = "" →
     runList Emoji DefaultPageNumber mapRange opts
     = (t ++ [LogInfo (noInstancesMessage opts)], Return None))
  ∧ (outputFormat opts ≠ "" →
     runList Emoji DefaultPageNumber mapRange opts
     = (t ++ [PrintFormatted (outputFormat opts) resp],
        Return (dump_Formatted (f opts) (outputFormat opts) resp))).
Proof.
  intros Hfetch Hitems. split; [|split].
  - pose proof (fetchPage_events opts) as H. by rewrite Hfetch in H.
  - intros Hfmt. rewrite runList_split, Hfetch, presentPage_cases.
    rewrite Hitems. by destruct (decide _) as [_|[]].
  - intros Hfmt. rewrite runList_split, Hfetch, presentPage_cases.
    rewrite Hitems, resolve_nil.
    destruct (decide _) as [[_ ?]|_]; [done|].
    by destruct (decide _) as [?|_].
Qed.

(** C10. When the fetch yields a page on which some instance refers to a
    cluster and a structured format is asked for, the lookup request is
    still issued; if it fails the command returns its error and renders
    nothing; if it succeeds the raw page goes to the structured renderer,
    and neither the events nor the result depend on the clusters found. *)
Theorem structured_output_still_looks_up (opts : options) (t : list event)
    (resp : KafkaRequestList) :
  fetchPage opts = (t, inr resp) →
  outputFormat opts ≠ "" →
  (∃ c, references (GetItems resp) c) →
  match clustermgmt_GetClusterListWithSearchParams (f opts)
          (params opts (GetItems resp)) with
  | Err err =>
      runList Emoji DefaultPageNumber mapRange opts
      = (t ++ [CallGetClusterList (params opts (GetItems resp))],
         Return (Some err))
  | Ok _ =>
      runList Emoji DefaultPageNumber mapRange opts
      = (t ++ [CallGetClusterList (params opts (GetItems resp));
               PrintFormatted (outputFormat opts) resp],
         Return (dump_Formatted (f opts) (outputFormat opts) resp))
  end.
Proof.
  intros Hfetch Hfmt [c Hc].
  rewrite runList_split, Hfetch, presentPage_cases, resolve_cases.
  destruct (decide (_ ∧ _)) as [[_ ?]|_]; [done|].
  destruct (decide (size _ = 0)) as [Hz|_].
  { destruct (proj1 (collectClusterIds_size _) Hz c Hc). }
  destruct (clustermgmt_GetClusterListWithSearchParams _ _); [|done].
  by destruct (decide _) as [?|_].
Qed.

(** Events of the stages after the fetch are told apart one by one. *)
Ltac in_list H :=
  repeat match type of H with
         | _ ∈ _ :: _ => apply elem_of_cons in H as [H|H]; [try done|]
         | _ ∈ [] => by apply elem_of_nil in H
         end.

(** The table the command prints is the projection of the fetched page
    under the session's selection. *)
Lemma printed_table (opts : options) (t : list event)
    (resp : KafkaRequestList) (rows : list kafkaRow) :
  fetchPage opts = (t, inr resp) →
  PrintTable rows ∈ (runList Emoji DefaultPageNumber mapRange opts).1 →
  ∃ svcContext currCtx clusterIdMap,
    f_ServiceContext_Load (f opts) = Ok svcContext
    ∧ contextutil_GetCurrentContext (f opts) svcContext = Ok currCtx
    ∧ (resolve opts (GetItems resp)).2 = Ok clusterIdMap
    ∧ mapResponseItemsToRows Emoji opts (GetItems resp)
        (selectedOf currCtx) clusterIdMap = Some rows.
Proof.
  intros Hfetch Hin. rewrite runList_split, Hfetch in Hin. simpl in Hin.
  apply elem_of_app in Hin as [Hin|Hin].
  { pose proof (fetchPage_events opts) as H. rewrite Hfetch in H.
    rewrite Forall_forall in H. by apply H in Hin. }
  rewrite presentPage_cases in Hin.
  destruct (decide (_ ∧ _)); simpl in Hin; [in_list Hin|].
  pose proof (resolve_events opts (GetItems resp) (PrintTable rows)) as Hres.
  destruct (resolve opts (GetItems resp)) as [t' [clusterIdMap|err]];
    simpl in Hres; [|by apply Hres in Hin].
  destruct (decide (outputFormat opts = "")); simpl in Hin.
  2:{ apply elem_of_app in Hin as [Hin|Hin]; [by apply Hres in Hin|in_list Hin]. }
  destruct (f_ServiceContext_Load (f opts)) as [svcContext|err]; simpl in Hin.
  2:{ apply elem_of_app in Hin as [Hin|Hin]; [by apply Hres in Hin|in_list Hin]. }
  destruct (contextutil_GetCurrentContext (f opts) svcContext)
    as [currCtx|err] eqn:Hcur; simpl in Hin.
  2:{ apply elem_of_app in Hin as [Hin|Hin]; [by apply Hres in Hin|in_list Hin]. }
  destruct (mapResponseItemsToRows Emoji opts (GetItems resp)
              (selectedOf currCtx) clusterIdMap) as [rows'|] eqn:Hrows;
    simpl in Hin.
  2:{ apply elem_of_app in Hin as [Hin|Hin]; [by apply Hres in Hin|in_list Hin]. }
  apply elem_of_app in Hin as [Hin|Hin]; [by apply Hres in Hin|].
  in_list Hin. simplify_eq. by exists svcContext, currCtx, clusterIdMap.
Qed.

(** C6, as the code has it. In every row of the printed table the marker
    is appended to the instance's name iff the instance identifier equals
    the identifier the rows are compared with: the session's selection when
    it is not empty, and the sentinel ["-"] when the session has none.  So
    without a selection a row is marked iff its instance's identifier is
    itself ["-"]; rows of instances with any other identifier are not. *)
Theorem current_marker_in_table (opts : options) (t : list event)
    (resp : KafkaRequestList) (rows : list kafkaRow) :
  fetchPage opts = (t, inr resp) →
  PrintTable rows ∈ (runList Emoji DefaultPageNumber mapRange opts).1 →
  ∃ svcContext currCtx,
    f_ServiceContext_Load (f opts) = Ok svcContext
    ∧ contextutil_GetCurrentContext (f opts) svcContext = Ok currCtx
    ∧ length rows = length (GetItems resp)
    ∧ ∀ i k, GetItems resp !! i = Some k →
        ∃ r id name,
          rows !! i = Some r ∧ GetId k = Some id ∧ GetName k = Some name
          ∧ (marked Emoji name r ∨ Name r = name)
          ∧ (KafkaID currCtx ≠ "" →
             (marked Emoji name r ↔ id = KafkaID currCtx))
          ∧ (KafkaID currCtx = "" → (marked Emoji name r ↔ id = "-")).
Proof.
  intros Hfetch Hin.
  destruct (printed_table _ _ _ _ Hfetch Hin)
    as (svcContext & currCtx & clusterIdMap & Hload & Hcur & _ & Hrows).
  exists svcContext, currCtx. split; [done|]. split; [done|].
  destruct (mapResponseItemsToRows_rows _ _ _ _ _ _ Hrows) as [Hlen Hrow].
  split; [done|]. intros i k Hk.
  destruct (Hrow i k Hk) as (r & Hr & Hof).
  apply rowOf_marker in Hof as (id & name & Hid & Hname & _ & Hor & Hiff).
  exists r, id, name. repeat (split; [done|]).
  unfold selectedOf in Hiff.
  destruct (decide (KafkaID currCtx ≠ "")) as [Hne|Heq]; split; done.
Qed.

(** C4, as the code has it. When the fetch yields a page, either the
    lookup request fails and the command returns that error, or the index
    has an entry for a cluster id referenced on the page exactly when the
    lookup response holds a cluster with that id: the response is taken
    as it comes, complete or not. *)
Theorem index_holds_returned_clusters (opts : options) (t : list event)
    (resp : KafkaRequestList) :
  fetchPage opts = (t, inr resp) →
  match (resolve opts (GetItems resp)).2 with
  | Err err =>
      (runList Emoji DefaultPageNumber mapRange opts).2 = Return (Some err)
  | Ok clusterIdMap =>
      ∀ c, references (GetItems resp) c →
        (is_Some (clusterIdMap !! c)
         ↔ ∃ clusterList cluster,
             clustermgmt_GetClusterListWithSearchParams (f opts)
               (params opts (GetItems resp)) = Ok clusterList
             ∧ cluster ∈ clusterList ∧ cluster_id cluster = c)
  end.
Proof.
  intros Hfetch.
  rewrite runList_split, Hfetch, presentPage_cases, resolve_cases.
  destruct (decide (size _ = 0)) as [Hz|Hnz]; simpl.
  { intros c Hc. destruct (proj1 (collectClusterIds_size _) Hz c Hc). }
  destruct (clustermgmt_GetClusterListWithSearchParams _ _)
    as [clusterList|err].
  - intros c Hc. rewrite indexOf_is_Some. split.
    + intros (cluster & ? & ?). by exists clusterList, cluster.
    + intros (l & cluster & [= <-] & ? & ?). by exists cluster.
  - destruct (decide (_ ∧ _)) as [[Hlen _]|_]; [|done].
    destruct (GetItems resp); [|done]. by destruct Hnz.
Qed.

(** Failures of the other collaborators come back as they are. *)
Lemma connection_failure_returned (opts : options) (err : error) :
  f_Connection (f opts) = Err err →
  runList Emoji DefaultPageNumber mapRange opts
  = ([CallConnection], Return (Some err)).
Proof.
  intros H. rewrite runList_split. unfold fetchPage. cmd_unfold. by rewrite H.
Qed.

Lemma fetch_failure_returned (opts : options) (conn : Connection) (err : error) :
  f_Connection (f opts) = Ok conn →
  (∀ adapter, kiota_Kafkas_Get (f opts) adapter None = Err err) →
  (runList Emoji DefaultPageNumber mapRange opts).2 = Return (Some err).
Proof.
  intros Hconn Hget. rewrite runList_split.
  unfold fetchPage, prepareRequest. cmd_unfold. rewrite Hconn. simpl.
  destruct (decide (search opts ≠ "")); simpl;
    destruct (http_NewNetHttpRequestAdapter _ _); simpl;
    by rewrite Hget.
Qed.

Lemma session_failure_returned (opts : options) (t : list event)
    (resp : KafkaRequestList) (clusterIdMap : gmap string Cluster) (err : error) :
  fetchPage opts = (t, inr resp) →
  outputFormat opts = "" → GetItems resp ≠ [] →
  (resolve opts (GetItems resp)).2 = Ok clusterIdMap →
  f_ServiceContext_Load (f opts) = Err err
  ∨ (∃ svcContext, f_ServiceContext_Load (f opts) = Ok svcContext
       ∧ contextutil_GetCurrentContext (f opts) svcContext = Err err) →
  (runList Emoji DefaultPageNumber mapRange opts).2 = Return (Some err).
Proof.
  intros Hfetch Hfmt Hne Hres Hfail.
  rewrite runList_split, Hfetch, presentPage_cases.
  destruct (decide (_ ∧ _)) as [[Hlen _]|_].
  { by destruct (GetItems resp). }
  destruct (resolve opts (GetItems resp)) as [t' r]. simpl in Hres. subst r.
  destruct (decide _) as [_|?]; [|done].
  destruct Hfail as [->|(svcContext & -> & ->)]; done.
Qed.

End RunList.

(** ** The properties at the sample inputs *)

Lemma cluster_lookup_deduplicated_witness :
  (∀ s : gset string, elements s ≡ₚ elements s)
  ∧ ∃ ids : list string,
      NoDup ids
      ∧ (∀ c, c ∈ ids ↔ references (GetItems samplePage) c)
      ∧ (∀ c, references (GetItems samplePage) c →
           count_occ string_dec (map idClause ids) (idClause c) = 1)
      ∧ (getClusterIdMapFromKafkas 1 elements
           (sampleOptions "" "" exampleFactory) (GetItems samplePage)).1
        = [CallGetClusterList
             {| cl_url := "";
                cl_token := "";
                cl_search := String.concat " or " (map idClause ids);
                cl_page := 1;
                cl_size := Z.of_nat (length ids) |}].
Proof.
  split; [done|].
  apply (cluster_lookup_deduplicated 1 elements
           (sampleOptions "" "" exampleFactory) (GetItems samplePage)); [done|].
  exists "c1", (instance "k1" "alpha" (Some "c1")). split; [left|reflexivity].
Defined.

Lemma cluster_label_of_row_witness :
  mapResponseItemsToRows glyph (sampleOptions "" "" exampleFactory)
    (GetItems samplePage) "k2" {["c1" := prodCluster]} = Some exampleRows
  ∧ (∃ r, exampleRows !! 1 = Some r
          ∧ OpenshiftCluster r = "prod-cluster" +:+ " (" +:+ "c1" +:+ ")")
  ∧ (∃ r, exampleRows !! 2 = Some r
          ∧ OpenshiftCluster r
            = hostedLabel (sampleOptions "" "" exampleFactory)).
Proof.
  assert (H : mapResponseItemsToRows glyph (sampleOptions "" "" exampleFactory)
                (GetItems samplePage) "k2" {["c1" := prodCluster]}
              = Some exampleRows) by reflexivity.
  split; [exact H|]. split.
  - destruct (cluster_label_of_row glyph _ _ _ _ _ H 1
                (instance "k2" "beta" (Some "c1")) eq_refl) as (r & Hr & Hl & _).
    by exists r.
  - destruct (cluster_label_of_row glyph _ _ _ _ _ H 2
                (instance "k3" "gamma" None) eq_refl) as (r & Hr & Hl & _).
    by exists r.
Defined.

Lemma lookup_miss_still_projects_witness :
  Forall complete (GetItems samplePage)
  ∧ ∃ rows,
      mapResponseItemsToRows glyph (sampleOptions "" "" exampleFactory)
        (GetItems samplePage) "k2" ∅ = Some rows
      ∧ length rows = 3
      ∧ ∃ r, rows !! 0 = Some r ∧ Some "k1" = Some (ID r)
             ∧ OpenshiftCluster r = " ()".
Proof.
  assert (Hall : Forall complete (GetItems samplePage)).
  { repeat constructor; by eexists. }
  split; [exact Hall|].
  destruct (lookup_miss_still_projects glyph (sampleOptions "" "" exampleFactory)
              (GetItems samplePage) "k2" ∅ Hall) as (rows & Hrows & Hlen & Hmiss).
  exists rows. split; [done|]. split; [done|].
  exact (Hmiss 0 (instance "k1" "alpha" (Some "c1")) "c1" eq_refl eq_refl eq_refl).
Defined.

Lemma current_marker_in_table_witness :
  let opts := sampleOptions "" "" exampleFactory in
  fetchPage opts = ((fetchPage opts).1, inr samplePage)
  ∧ PrintTable exampleRows ∈ (runList glyph 1 elements opts).1
  ∧ ∃ r id name,
      exampleRows !! 1 = Some r ∧ Some "k2" = Some id ∧ Some "beta" = Some name
      ∧ (marked glyph name r ↔ id = "k2").
Proof.
  intros opts.
  assert (Hfetch : fetchPage opts = ((fetchPage opts).1, inr samplePage))
    by reflexivity.
  assert (Hin : PrintTable exampleRows ∈ (runList glyph 1 elements opts).1).
  { apply list_elem_of_lookup. exists 7. reflexivity. }
  split; [exact Hfetch|]. split; [exact Hin|].
  destruct (current_marker_in_table glyph 1 elements opts _ _ _ Hfetch Hin)
    as (svcContext & currCtx & Hload & Hcur & _ & Hrow).
  destruct (Hrow 1 (instance "k2" "beta" (Some "c1")) eq_refl)
    as (r & id & name & Hr & Hid & Hname & _ & Hsel & _).
  exists r, id, name. repeat (split; [done|]).
  injection Hload as <-. injection Hcur as <-. by apply Hsel.
Defined.

Lemma index_holds_returned_clusters_witness :
  let opts := sampleOptions "" "" exampleFactory in
  fetchPage opts = ((fetchPage opts).1, inr samplePage)
  ∧ ∀ c, references (GetItems samplePage) c →
      (is_Some (indexOf [prodCluster] !! c)
       ↔ ∃ clusterList cluster,
           Ok [prodCluster] = Ok clusterList
           ∧ cluster ∈ clusterList ∧ cluster_id cluster = c).
Proof.
  intros opts. split; [reflexivity|].
  exact (index_holds_returned_clusters glyph 1 elements opts
           (fetchPage opts).1 samplePage eq_refl).
Defined.

Lemma empty_page_presentation_witness :
  let table := sampleOptions "" ""
                 (sampleFactory goodAdapter (pageOf []) (Ok []) "") in
  let json := sampleOptions "json" ""
                (sampleFactory goodAdapter (pageOf []) (Ok []) "") in
  fetchPage table = ((fetchPage table).1, inr (pageOf []))
  ∧ fetchPage json = ((fetchPage json).1, inr (pageOf []))
  ∧ runList glyph 1 elements table
    = ((fetchPage table).1 ++ [LogInfo (noInstancesMessage table)], Return None)
  ∧ runList glyph 1 elements json
    = ((fetchPage json).1 ++ [PrintFormatted "json" (pageOf [])], Return None).
Proof.
  intros table json. split; [reflexivity|]. split; [reflexivity|]. split.
  - by apply (empty_page_presentation glyph 1 elements table
                (fetchPage table).1 (pageOf []) eq_refl eq_refl).
  - by apply (empty_page_presentation glyph 1 elements json
                (fetchPage json).1 (pageOf []) eq_refl eq_refl).
Defined.

Lemma structured_output_still_looks_up_witness :
  let failing := sampleOptions "json" ""
                   (sampleFactory goodAdapter samplePage (Err "unreachable") "") in
  fetchPage failing = ((fetchPage failing).1, inr samplePage)
  ∧ outputFormat failing ≠ ""
  ∧ references (GetItems samplePage) "c1"
  ∧ runList glyph 1 elements failing
    = ((fetchPage failing).1
         ++ [CallGetClusterList
               (lookupParams 1 elements failing (GetItems samplePage))],
       Return (Some "unreachable")).
Proof.
  intros failing.
  assert (Href : references (GetItems samplePage) "c1").
  { exists (instance "k1" "alpha" (Some "c1")). split; [left|reflexivity]. }
  split; [reflexivity|]. split; [done|]. split; [exact Href|].
  apply (structured_output_still_looks_up glyph 1 elements failing
           (fetchPage failing).1 samplePage eq_refl); [done|by exists "c1"].
Defined.

(** ** Where the code leaves the specification *)

(** C4 as stated fails: the lookup answers without the referenced cluster
    [c1], the resolver returns an index that has no entry for it, and the
    command goes on and returns nil. *)
Lemma index_misses_referenced_cluster :
  let opts := sampleOptions "" ""
                (sampleFactory goodAdapter samplePage (Ok []) "k2") in
  references (GetItems samplePage) "c1"
  ∧ ∃ clusterIdMap,
      (getClusterIdMapFromKafkas 1 elements opts (GetItems samplePage)).2
        = Ok clusterIdMap
      ∧ clusterIdMap !! "c1" = None
      ∧ (runList glyph 1 elements opts).2 = Return None.
Proof.
  intros opts. split.
  - exists (instance "k1" "alpha" (Some "c1")). split; [left|reflexivity].
  - exists ∅. split; [reflexivity|]. split; [reflexivity|]. reflexivity.
Qed.

(** C6 as stated fails: with no selection in the session the rows are
    compared with ["-"], and the row of an instance whose identifier is
    ["-"] carries the marker. *)
Lemma sentinel_marks_dash_instance :
  let opts := sampleOptions "" ""
                (sampleFactory goodAdapter
                   (pageOf [instance "-" "dash" None]) (Ok []) "") in
  contextutil_GetCurrentContext (f opts)
    {| CurrentContext := "dev"; Contexts := [] |} = Ok {| KafkaID := "" |}
  ∧ ∃ r, PrintTable [r] ∈ (runList glyph 1 elements opts).1
         ∧ ID r = "-" ∧ marked glyph "dash" r.
Proof.
  intros opts. split; [reflexivity|].
  exists (exampleRow "-" ("dash" +:+ " " +:+ glyph "✔" "(current)")
            "kafka.list.output.openshiftCluster.redhat").
  split; [|split; reflexivity].
  apply list_elem_of_lookup. exists 6. reflexivity.
Qed.

(** The requests that go out after the fetch are none of the instance
    API's. *)
Lemma presentPage_requests (E : string → string → string) (D : Z)
    (R : gset string → list string) (opts : options) (resp : KafkaRequestList) :
  instanceRequests (presentPage E D R opts resp).1 = [].
Proof.
  rewrite presentPage_cases, resolve_cases. unfold instanceRequests.
  destruct (decide (_ ∧ _)); [done|].
  destruct (decide (size _ = 0)); simpl;
    repeat (case_match; simpl; try done).
Qed.

Lemma fetchPage_requests (opts : options) :
  instanceRequests (fetchPage opts).1
  = match f_Connection (f opts) with Ok _ => [None] | Err _ => [] end.
Proof.
  unfold fetchPage, prepareRequest, instanceRequests. cmd_unfold.
  destruct (f_Connection (f opts)) as [conn|e]; simpl; [|done].
  destruct (decide (search opts ≠ "")); simpl;
    destruct (http_NewNetHttpRequestAdapter _ _); simpl;
    by destruct (kiota_Kafkas_Get _ _ _).
Qed.

(** C1, where the code departs from it. For every input the request
    that [runList] prepares carries the caller's page number and page size
    and, for a non-empty search term only, the predicate of the query
    builder; but that request is never sent: the one request that reaches
    the instance API (none when no connection is had) goes out with the
    nil configuration, carrying none of the three. *)
Theorem paging_and_search_not_sent (E : string → string → string) (D : Z)
    (R : gset string → list string) (opts : options) :
  (prepareRequest opts).2
  = inr {| req_page := Some (Itoa (page opts));
           req_size := Some (Itoa (limit opts));
           req_search := if decide (search opts ≠ "")
                         then Some (buildQuery (search opts)) else None |}
  ∧ instanceRequests (runList E D R opts).1
    = match f_Connection (f opts) with Ok _ => [None] | Err _ => [] end.
Proof.
  split.
  - unfold prepareRequest. cmd_unfold. by destruct (decide _).
  - rewrite runList_split. pose proof (fetchPage_requests opts) as Hfetch.
    destruct (fetchPage opts) as [t [o|resp]]; simpl in *; [done|].
    unfold instanceRequests in *. rewrite omap_app, Hfetch.
    fold (instanceRequests (presentPage E D R opts resp).1).
    by rewrite presentPage_requests, app_nil_r.
Qed.

(** The run for page 2, size 5 and the term [foo]. *)
Example sample_run_page_two :
  let opts := sampleOptions "" "foo" exampleFactory in
  (prepareRequest opts).2
  = inr {| req_page := Some "2";
           req_size := Some "5";
           req_search := Some (buildQuery "foo") |}
  ∧ runList glyph 1 elements opts
    = ([CallConnection;
        LogDebug "kafka.list.log.debug.filteringKafkaList";
        CallNewAdapter "token";
        Stdout ("+++ Using Kiota client" +:+ nl);
        CallKafkasGet (Some {| adapter_token := "token" |}) None;
        CallGetClusterList
          {| cl_url := ""; cl_token := ""; cl_search := "id = 'c1'";
             cl_page := 1; cl_size := 1 |};
        CallServiceContextLoad;
        CallGetCurrentContext {| CurrentContext := "dev"; Contexts := [] |};
        PrintTable exampleRows;
        LogInfo ""],
       Return None).
Proof. split; reflexivity. Qed.

(** What list.go 136-140 would do with an adapter that cannot be built:
    print the error and go on to the fetch, the stage ending as the fetch
    does. *)
Lemma adapter_failure_goes_on (opts : options) (conn : Connection)
    (err : error) :
  f_Connection (f opts) = Ok conn →
  http_NewNetHttpRequestAdapter (f opts) (AccessToken conn) = Err err →
  ∃ t,
    (fetchPage opts).1
    = t ++ [Stdout (Fmt.Sprintf ("Error creating request adapter: %v" +:+ nl) [err]);
            Stdout ("+++ Using Kiota client" +:+ nl);
            CallKafkasGet None None]
    ∧ (fetchPage opts).2
      = match kiota_Kafkas_Get (f opts) None None with
        | Ok resp => inr resp
        | Err err' => inl (Return (Some err'))
        end.
Proof.
  intros Hconn Hadapter. unfold fetchPage, prepareRequest. cmd_unfold.
  rewrite Hconn. simpl. destruct (decide (search opts ≠ "")); simpl;
    rewrite Hadapter; simpl; destruct (kiota_Kafkas_Get _ _ _); simpl.
  all: first [ by eexists [_; _; _] | by eexists [_; _] ].
Qed.







(** * Further properties of the code *)

(** ** The projector, row by row *)

Section ProjectorMore.

Variable Emoji : string → string → string.

(** The body of the loop dereferences a nil pointer exactly when a
    mandatory attribute is missing. *)
Lemma rowOf_None (opts : options) (selectedId : string)
    (clusterIdMap : gmap string Cluster) (k : KafkaRequestable) :
  rowOf Emoji opts selectedId clusterIdMap k = None ↔ ¬ complete k.
Proof.
  split.
  - intros Hnone Hk.
    destruct (rowOf_complete Emoji opts selectedId clusterIdMap k Hk) as [r Hr].
    congruence.
  - intros Hk. destruct (rowOf Emoji opts selectedId clusterIdMap k) as [r|] eqn:Hr;
      [|done].
    destruct Hk. apply rowOf_Some in Hr
      as (id & name & owner & status & cp & rg & Hid & Hname & Ho & Hs & Hcp & Hrg & _).
    unfold complete. rewrite Hid, Hname, Ho, Hs, Hcp, Hrg. repeat split; eauto.
Qed.

(** X1. A projection that returns has one row per instance, in the order
    of the page, and each row copies the instance's identifier, owner,
    status, cloud provider and region as they are. *)
Theorem rows_copy_fields (opts : options) (kafkas : list KafkaRequestable)
    (selectedId : string) (clusterIdMap : gmap string Cluster)
    (rows : list kafkaRow) :
  mapResponseItemsToRows Emoji opts kafkas selectedId clusterIdMap = Some rows →
  length rows = length kafkas
  ∧ ∀ i k, kafkas !! i = Some k →
      ∃ r, rows !! i = Some r
           ∧ GetId k = Some (ID r) ∧ GetOwner k = Some (Owner r)
           ∧ GetStatus k = Some (Status r)
           ∧ GetCloudProvider k = Some (CloudProvider r)
           ∧ GetRegion k = Some (Region r).
Proof.
  intros Hrows.
  destruct (mapResponseItemsToRows_rows _ _ _ _ _ _ Hrows) as [Hlen Hrow].
  split; [done|]. intros i k Hk.
  destruct (Hrow i k Hk) as (r & Hr & Hof). exists r. split; [done|].
  by apply rowOf_Some in Hof
    as (id & name & owner & status & cp & rg & Hid & Hname & Ho & Hs & Hcp & Hrg & ->).
Qed.

Lemma projector_None_incomplete (opts : options)
    (kafkas : list KafkaRequestable) (selectedId : string)
    (clusterIdMap : gmap string Cluster) :
  mapResponseItemsToRows Emoji opts kafkas selectedId clusterIdMap = None →
  Exists (λ k, ¬ complete k) kafkas.
Proof.
  unfold mapResponseItemsToRows. rewrite mapM_None, !Exists_exists.
  intros (k & Hin & Hk). exists k. split; [done|].
  by apply (rowOf_None opts selectedId clusterIdMap k).
Qed.

(** X2. The projector dereferences a nil pointer, and so makes no rows at
    all, exactly when some instance of the page lacks one of its
    identifier, name, owner, status, cloud provider or region; a missing
    cluster reference or a miss in the index never does that. *)
Theorem projector_panics_iff_incomplete (opts : options)
    (kafkas : list KafkaRequestable) (selectedId : string)
    (clusterIdMap : gmap string Cluster) :
  mapResponseItemsToRows Emoji opts kafkas selectedId clusterIdMap = None
  ↔ Exists (λ k, ¬ complete k) kafkas.
Proof.
  unfold mapResponseItemsToRows. rewrite mapM_None, !Exists_exists.
  split; intros (k & Hin & Hk); exists k; (split; [done|]);
    by apply (rowOf_None opts selectedId clusterIdMap k).
Qed.

(** X3. When the identifiers of the page are pairwise distinct, at most
    one row carries the marker. *)
Theorem at_most_one_row_marked (opts : options)
    (kafkas : list KafkaRequestable) (selectedId : string)
    (clusterIdMap : gmap string Cluster) (rows : list kafkaRow)
    (i j : nat) (ki kj : KafkaRequestable) (ri rj : kafkaRow)
    (namei namej : string) :
  mapResponseItemsToRows Emoji opts kafkas selectedId clusterIdMap = Some rows →
  NoDup (GetId <$> kafkas) →
  kafkas !! i = Some ki → kafkas !! j = Some kj →
  rows !! i = Some ri → rows !! j = Some rj →
  GetName ki = Some namei → GetName kj = Some namej →
  marked Emoji namei ri → marked Emoji namej rj →
  i = j.
Proof.
  intros Hrows Hnodup Hki Hkj Hri Hrj Hni Hnj Hmi Hmj.
  destruct (mapResponseItemsToRows_rows _ _ _ _ _ _ Hrows) as [_ Hrow].
  destruct (Hrow i ki Hki) as (ri' & Hri' & Hofi).
  destruct (Hrow j kj Hkj) as (rj' & Hrj' & Hofj).
  simplify_eq.
  apply rowOf_marker in Hofi as (idi & ni & Hidi & Hni' & _ & _ & Hiffi).
  apply rowOf_marker in Hofj as (idj & nj & Hidj & Hnj' & _ & _ & Hiffj).
  simplify_eq. apply Hiffi in Hmi. apply Hiffj in Hmj.
  apply (NoDup_lookup (GetId <$> kafkas) i j (Some selectedId)); [done|..].
  - rewrite list_lookup_fmap, Hki. simpl. congruence.
  - rewrite list_lookup_fmap, Hkj. simpl. congruence.
Qed.

(** X4. When no instance of the page has the identifier the rows are
    compared with, every row shows the instance's name as it is. *)
Theorem unselected_page_unmarked (opts : options)
    (kafkas : list KafkaRequestable) (selectedId : string)
    (clusterIdMap : gmap string Cluster) (rows : list kafkaRow) :
  mapResponseItemsToRows Emoji opts kafkas selectedId clusterIdMap = Some rows →
  (∀ k, k ∈ kafkas → GetId k ≠ Some selectedId) →
  ∀ i k, kafkas !! i = Some k →
    ∃ r, rows !! i = Some r ∧ GetName k = Some (Name r).
Proof.
  intros Hrows Hnot i k Hk.
  destruct (mapResponseItemsToRows_rows _ _ _ _ _ _ Hrows) as [_ Hrow].
  destruct (Hrow i k Hk) as (r & Hr & Hof). exists r. split; [done|].
  apply rowOf_marker in Hof as (id & name & Hid & Hname & _ & [Hm|Heq] & Hiff).
  - apply Hiff in Hm. subst id.
    destruct (Hnot k); [by eapply list_elem_of_lookup_2|done].
  - congruence.
Qed.

End ProjectorMore.

(** ** The resolver and its index *)

Lemma collectClusterIds_size_le (kafkas : list KafkaRequestable) :
  size (collectClusterIds kafkas) ≤ length kafkas.
Proof.
  unfold collectClusterIds.
  assert (H : ∀ acc : gset string,
             size (foldl
                     (λ kafkaClusterIds kafka,
                        match GetClusterId kafka with
                        | Some clusterId => {[clusterId]} ∪ kafkaClusterIds
                        | None => kafkaClusterIds
                        end) acc kafkas)
             ≤ size acc + length kafkas).
  { induction kafkas as [|k kafkas IH]; intros acc; simpl; [lia|].
    etrans; [apply IH|]. destruct (GetClusterId k) as [c|]; [|lia].
    rewrite size_union_alt, size_singleton.
    pose proof (subseteq_size (acc ∖ {[c]}) acc) as Hsub.
    assert (acc ∖ {[c]} ⊆ acc) as Hincl
      by (intros x Hx; by apply elem_of_difference in Hx as [? _]).
    specialize (Hsub Hincl). lia. }
  specialize (H ∅). by rewrite size_empty in H.
Qed.

Lemma index_foldl_last (clusterList : list Cluster)
    (acc : gmap string Cluster) (c : string) :
  foldl (λ idToCluster cluster,
           <[Cluster_ID (Some cluster) := cluster]> idToCluster)
        acc clusterList !! c
  = match last (filter (λ cluster, cluster_id cluster = c) clusterList) with
    | Some cluster => Some cluster
    | None => acc !! c
    end.
Proof.
  revert acc. induction clusterList as [|x l IH]; intros acc; simpl; [done|].
  rewrite IH, filter_cons. destruct (decide (cluster_id x = c)) as [Heq|Hne].
  - rewrite last_cons.
    destruct (last (filter (λ cluster, cluster_id cluster = c) l)); [done|].
    by rewrite <- Heq, lookup_insert_eq.
  - destruct (last (filter (λ cluster, cluster_id cluster = c) l)); [done|].
    by rewrite lookup_insert_ne.
Qed.

(** The label of a row, read off the index. *)
Lemma row_label_from_index (Emoji : string → string → string)
    (opts : options) (kafkas : list KafkaRequestable) (selectedId : string)
    (clusterIdMap : gmap string Cluster) (rows : list kafkaRow) :
  mapResponseItemsToRows Emoji opts kafkas selectedId clusterIdMap = Some rows →
  ∀ i k, kafkas !! i = Some k →
    ∃ r, rows !! i = Some r
         ∧ OpenshiftCluster r
           = match GetClusterId k with
             | Some c =>
                 Cluster_Name (clusterIdMap !! c) +:+ " ("
                   +:+ Cluster_ID (clusterIdMap !! c) +:+ ")"
             | None => hostedLabel opts
             end.
Proof.
  intros Hrows i k Hk.
  destruct (mapResponseItemsToRows_rows _ _ _ _ _ _ Hrows) as [_ Hrow].
  destruct (Hrow i k Hk) as (r & Hr & Hof). exists r. split; [done|].
  by apply rowOf_Some in Hof
    as (id & name & owner & status & cp & rg & Hid & Hname & Ho & Hs & Hcp & Hrg & ->).
Qed.

Section ResolverMore.

Variable DefaultPageNumber : Z.
Variable mapRange : gset string → list string.

Local Abbreviation resolve := (getClusterIdMapFromKafkas DefaultPageNumber mapRange).
Local Abbreviation params := (lookupParams DefaultPageNumber mapRange).

(** X5. A lookup request of the resolver asks for the first page, for at
    least one cluster and for no more clusters than the page has
    instances, at the URL and with the token of the options. *)
Theorem lookup_size_bounded (opts : options)
    (kafkas : list KafkaRequestable) (p : ClusterListParams) :
  CallGetClusterList p ∈ (resolve opts kafkas).1 →
  (1 ≤ cl_size p ≤ Z.of_nat (length kafkas))%Z
  ∧ cl_page p = DefaultPageNumber
  ∧ cl_url p = clusterManagementApiUrl opts
  ∧ cl_token p = accessToken opts.
Proof.
  rewrite resolve_cases.
  destruct (decide (size (collectClusterIds kafkas) = 0)) as [Hz|Hnz]; simpl.
  { intros H. by apply elem_of_nil in H. }
  intros H. apply elem_of_cons in H as [[= ->]|H]; [|by apply elem_of_nil in H].
  simpl. pose proof (collectClusterIds_size_le kafkas). repeat split; lia.
Qed.

(** X6. The resolver fails exactly when some instance has a cluster
    reference and the lookup fails, and then with the lookup's own
    error. *)
Theorem resolver_fails_iff_lookup_fails (opts : options)
    (kafkas : list KafkaRequestable) (err : error) :
  (resolve opts kafkas).2 = Err err
  ↔ (∃ c, references kafkas c)
    ∧ clustermgmt_GetClusterListWithSearchParams (f opts) (params opts kafkas)
      = Err err.
Proof.
  rewrite resolve_cases.
  destruct (decide (size (collectClusterIds kafkas) = 0)) as [Hz|Hnz]; simpl.
  - split; [done|]. intros [[c Hc] _].
    destruct (proj1 (collectClusterIds_size _) Hz c Hc).
  - assert (Href : ∃ c, references kafkas c).
    { destruct (elements (collectClusterIds kafkas)) as [|c l] eqn:Hel.
      - apply elements_empty_inv in Hel. by apply size_empty_iff in Hel.
      - exists c. apply elem_of_collectClusterIds, elem_of_elements.
        rewrite Hel. left. }
    destruct (clustermgmt_GetClusterListWithSearchParams _ _) as [l|e].
    + split; [done|]. by intros [_ ?].
    + split; [by intros [= ->]|]. by intros [_ [= ->]].
Qed.

(** X7. When the lookup answers, the index maps an identifier to the
    last cluster of the response that has it: every cluster of the
    response is indexed under its own identifier, clusters that no
    instance refers to included, and of several clusters with one
    identifier the last is kept. *)
Theorem index_keeps_last_cluster (opts : options)
    (kafkas : list KafkaRequestable) (clusterList : list Cluster) :
  (∃ c, references kafkas c) →
  clustermgmt_GetClusterListWithSearchParams (f opts) (params opts kafkas)
    = Ok clusterList →
  ∃ clusterIdMap,
    (resolve opts kafkas).2 = Ok clusterIdMap
    ∧ ∀ c, clusterIdMap !! c
           = last (filter (λ cluster, cluster_id cluster = c) clusterList).
Proof.
  intros [c0 Hc0] Hlookup. rewrite resolve_cases.
  destruct (decide (size (collectClusterIds kafkas) = 0)) as [Hz|Hnz]; simpl.
  { destruct (proj1 (collectClusterIds_size _) Hz c0 Hc0). }
  rewrite Hlookup. eexists. split; [done|]. intros c.
  unfold indexOf. rewrite index_foldl_last.
  by destruct (last _).
Qed.

(** X8. The resolver and the projector together: in the rows made with
    the resolver's index, an instance whose cluster reference is in the
    index is labelled with the cluster's name followed by that very
    reference in brackets. *)
Theorem hit_label_shows_reference (Emoji : string → string → string)
    (opts : options) (kafkas : list KafkaRequestable) (selectedId : string)
    (clusterIdMap : gmap string Cluster) (rows : list kafkaRow)
    (i : nat) (k : KafkaRequestable) (c : string) (cluster : Cluster) :
  (resolve opts kafkas).2 = Ok clusterIdMap →
  mapResponseItemsToRows Emoji opts kafkas selectedId clusterIdMap = Some rows →
  kafkas !! i = Some k → GetClusterId k = Some c →
  clusterIdMap !! c = Some cluster →
  ∃ r, rows !! i = Some r
       ∧ OpenshiftCluster r = cluster_name cluster +:+ " (" +:+ c +:+ ")".
Proof.
  intros Hres Hrows Hk Hc Hhit.
  assert (Hid : cluster_id cluster = c).
  { rewrite resolve_cases in Hres.
    destruct (decide (size (collectClusterIds kafkas) = 0)); simpl in Hres.
    - injection Hres as <-. by rewrite lookup_empty in Hhit.
    - destruct (clustermgmt_GetClusterListWithSearchParams _ _) as [l|];
        [|done].
      injection Hres as <-. unfold indexOf in Hhit.
      apply index_foldl_lookup in Hhit as [Hhit|[_ ?]]; [|done].
      by rewrite lookup_empty in Hhit. }
  destruct (row_label_from_index Emoji opts kafkas selectedId clusterIdMap
              rows Hrows i k Hk) as (r & Hr & Hlabel).
  exists r. split; [done|]. by rewrite Hlabel, Hc, Hhit, <- Hid.
Qed.

End ResolverMore.

(** ** The command, from its first call to its return *)

Ltac in_events H :=
  repeat match type of H with
         | _ ∈ _ ++ _ => apply elem_of_app in H as [H|H]
         | _ ∈ _ :: _ => apply elem_of_cons in H as [H|H]; [try done|]
         | _ ∈ [] => by apply elem_of_nil in H
         end.

Lemma fetchEvent_no_lookup (t : list event) :
  Forall fetchEvent t → lookupRequests t = [].
Proof.
  induction 1 as [|e t He _ IH]; [done|].
  destruct e; simpl in He; try done; exact IH.
Qed.

(** The fetch stage ends with the page or by returning an error. *)
Lemma fetchPage_outcome (opts : options) :
  match (fetchPage opts).2 with
  | inl (Return (Some _)) | inr _ => True
  | _ => False
  end.
Proof.
  unfold fetchPage, prepareRequest. cmd_unfold.
  destruct (f_Connection (f opts)) as [conn|e]; simpl; [|done].
  destruct (decide (search opts ≠ "")); simpl;
    destruct (http_NewNetHttpRequestAdapter _ _); simpl;
    by destruct (kiota_Kafkas_Get _ _ _).
Qed.

Section RunListMore.

Variable Emoji : string → string → string.
Variable DefaultPageNumber : Z.
Variable mapRange : gset string → list string.

Local Abbreviation resolve := (getClusterIdMapFromKafkas DefaultPageNumber mapRange).
Local Abbreviation present := (presentPage Emoji DefaultPageNumber mapRange).
Local Abbreviation params := (lookupParams DefaultPageNumber mapRange).
Local Abbreviation runList' := (runList Emoji DefaultPageNumber mapRange).

(** X9. An invocation sends at most one cluster lookup: none when the
    fetch fails or its page refers to no cluster, and otherwise the one
    request for the clusters of the fetched page, whatever the output
    format and however the later stages end. *)
Theorem at_most_one_lookup (opts : options) :
  lookupRequests (runList' opts).1
  = match (fetchPage opts).2 with
    | inr resp =>
        if decide (size (collectClusterIds (GetItems resp)) = 0) then []
        else [params opts (GetItems resp)]
    | inl _ => []
    end.
Proof.
  rewrite runList_split. pose proof (fetchPage_events opts) as Hev.
  apply fetchEvent_no_lookup in Hev.
  destruct (fetchPage opts) as [t [o|resp]]; simpl in *; [done|].
  unfold lookupRequests in *. rewrite omap_app, Hev. simpl.
  rewrite presentPage_cases, resolve_cases.
  destruct (decide (_ ∧ _)) as [[Hlen _]|_].
  { destruct (GetItems resp); [|done]. by destruct (decide _) as [_|[]]. }
  destruct (decide (size _ = 0)); simpl; repeat (case_match; simpl; try done).
Qed.

(** X10. [runList] ends in a nil dereference only on the table path, and
    only when the fetched page holds an instance that lacks a mandatory
    attribute; with a structured format it always returns. *)
Theorem runList_panics_only_in_table (opts : options) :
  (runList' opts).2 = Panic →
  outputFormat opts = ""
  ∧ ∃ t resp, fetchPage opts = (t, inr resp)
              ∧ Exists (λ k, ¬ complete k) (GetItems resp).
Proof.
  rewrite runList_split. pose proof (fetchPage_outcome opts) as Hout.
  destruct (fetchPage opts) as [t [o|resp]]; simpl in *.
  { intros ->. done. }
  rewrite presentPage_cases.
  destruct (decide (_ ∧ _)); [done|].
  destruct (resolve opts (GetItems resp)) as [t' [clusterIdMap|err]]; [|done].
  destruct (decide (outputFormat opts = "")) as [Hfmt|]; [|done].
  destruct (f_ServiceContext_Load (f opts)) as [svcContext|]; [|done].
  destruct (contextutil_GetCurrentContext (f opts) svcContext) as [currCtx|];
    [|done].
  destruct (mapResponseItemsToRows Emoji opts (GetItems resp)
              (selectedOf currCtx) clusterIdMap) eqn:Hrows; [done|].
  intros _. split; [done|]. exists t, resp. split; [done|].
  exact (projector_None_incomplete Emoji _ _ _ _ Hrows).
Qed.

(** X11. The session state is loaded only on the table path and only for
    a page that has instances: a structured format or an empty page never
    reads it. *)
Theorem session_read_only_for_table (opts : options) :
  CallServiceContextLoad ∈ (runList' opts).1 →
  outputFormat opts = ""
  ∧ ∃ t resp, fetchPage opts = (t, inr resp) ∧ GetItems resp ≠ [].
Proof.
  rewrite runList_split. pose proof (fetchPage_events opts) as Hev.
  rewrite Forall_forall in Hev.
  destruct (fetchPage opts) as [t [o|resp]]; simpl in *.
  { intros H. by apply Hev in H. }
  intros H. apply elem_of_app in H as [H|H]; [by apply Hev in H|].
  rewrite presentPage_cases, resolve_cases in H.
  destruct (decide (_ ∧ _)) as [|Hne]; [simpl in H; in_events H|].
  destruct (decide (outputFormat opts = "")) as [Hfmt|Hfmt].
  - split; [done|]. exists t, resp. split; [done|].
    intros Hnil. apply Hne. by rewrite Hnil.
  - destruct (decide (size _ = 0)); simpl in H;
      repeat (case_match; simpl in H; try done); in_events H.
Qed.

(** X12. The structured renderer is called only under a non-empty format,
    with that format and with the page exactly as it was fetched, and
    what the renderer returns, error or nil, is what [runList] returns. *)
Theorem formatted_gets_fetched_page (opts : options) (format : string)
    (data : KafkaRequestList) :
  PrintFormatted format data ∈ (runList' opts).1 →
  format = outputFormat opts ∧ format ≠ ""
  ∧ (fetchPage opts).2 = inr data
  ∧ (runList' opts).2 = Return (dump_Formatted (f opts) format data).
Proof.
  rewrite runList_split. pose proof (fetchPage_events opts) as Hev.
  rewrite Forall_forall in Hev.
  destruct (fetchPage opts) as [t [o|resp]]; simpl in *.
  { intros H. by apply Hev in H. }
  intros H. apply elem_of_app in H as [H|H]; [by apply Hev in H|].
  rewrite presentPage_cases, resolve_cases in H |- *.
  destruct (decide (_ ∧ _)); [simpl in H; in_events H|].
  destruct (decide (size _ = 0)); simpl in H |- *;
    repeat (case_match; simpl in H |- *; try done); in_events H;
    by simplify_eq.
Qed.

End RunListMore.

Section RunListFailures.

Variable Emoji : string → string → string.
Variable DefaultPageNumber : Z.
Variable mapRange : gset string → list string.

Local Abbreviation resolve := (getClusterIdMapFromKafkas DefaultPageNumber mapRange).
Local Abbreviation present := (presentPage Emoji DefaultPageNumber mapRange).
Local Abbreviation runList' := (runList Emoji DefaultPageNumber mapRange).


(** X14. When the session state cannot be loaded, or the current context
    cannot be read from it, [runList] returns that error and prints no
    table, although the page was fetched and its clusters resolved. *)
Theorem session_failure_prints_nothing (opts : options) (t : list event)
    (resp : KafkaRequestList) (clusterIdMap : gmap string Cluster)
    (err : error) :
  fetchPage opts = (t, inr resp) →
  outputFormat opts = "" → GetItems resp ≠ [] →
  (resolve opts (GetItems resp)).2 = Ok clusterIdMap →
  f_ServiceContext_Load (f opts) = Err err
  ∨ (∃ svcContext, f_ServiceContext_Load (f opts) = Ok svcContext
       ∧ contextutil_GetCurrentContext (f opts) svcContext = Err err) →
  (runList' opts).2 = Return (Some err)
  ∧ ∀ rows, PrintTable rows ∉ (runList' opts).1.
Proof.
  intros Hfetch Hfmt Hne Hres Hfail. split.
  - by eapply session_failure_returned.
  - intros rows Hin.
    destruct (printed_table _ _ _ _ _ _ _ Hfetch Hin)
      as (svcContext & currCtx & idx & Hload & Hcur & _).
    destruct Hfail as [Hfail|(svc & Hload' & Hcur')]; congruence.
Qed.

(** X15. The debug log gets exactly one line, holding the predicate built
    from the search term, when a connection is had and the term is not
    empty, and no line otherwise. *)
Theorem debug_line_iff_search (opts : options) :
  debugLines (runList' opts).1
  = match f_Connection (f opts) with
    | Ok _ =>
        if decide (search opts ≠ "") then
          [f_MustLocalize (f opts) "kafka.list.log.debug.filteringKafkaList"
             [("Search", buildQuery (search opts))]]
        else []
    | Err _ => []
    end.
Proof.
  rewrite runList_split.
  assert (Hfetch : debugLines (fetchPage opts).1
            = match f_Connection (f opts) with
              | Ok _ =>
                  if decide (search opts ≠ "") then
                    [f_MustLocalize (f opts)
                       "kafka.list.log.debug.filteringKafkaList"
                       [("Search", buildQuery (search opts))]]
                  else []
              | Err _ => []
              end).
  { unfold fetchPage, prepareRequest, debugLines. cmd_unfold.
    destruct (f_Connection (f opts)) as [conn|e]; simpl; [|done].
    destruct (decide (search opts ≠ "")); simpl;
      destruct (http_NewNetHttpRequestAdapter _ _); simpl;
      by destruct (kiota_Kafkas_Get _ _ _). }
  destruct (fetchPage opts) as [t [o|resp]]; simpl in *; [done|].
  unfold debugLines in *. rewrite omap_app, Hfetch.
  rewrite presentPage_cases, resolve_cases.
  assert (∀ l : list string, l ++ [] = l) as Hnil by apply app_nil_r.
  destruct (decide (_ ∧ _)); [by rewrite Hnil|].
  destruct (decide (size _ = 0)); simpl;
    repeat (case_match; simpl; try done); by rewrite ?omap_app, ?Hnil.
Qed.

(** X19. A table is printed only by a run that succeeds: it is printed
    once, it is followed by the empty information line alone, and the
    command returns nil. *)
Theorem printed_table_means_success (opts : options) (rows : list kafkaRow) :
  PrintTable rows ∈ (runList' opts).1 →
  (runList' opts).2 = Return None
  ∧ ∃ t, (runList' opts).1 = t ++ [PrintTable rows; LogInfo ""]
         ∧ ∀ rows', PrintTable rows' ∉ t.
Proof.
  rewrite runList_split. pose proof (fetchPage_events opts) as Hev.
  rewrite Forall_forall in Hev.
  destruct (fetchPage opts) as [t [o|resp]]; simpl in *.
  { intros H. by apply Hev in H. }
  intros H. apply elem_of_app in H as [H|H]; [by apply Hev in H|].
  rewrite presentPage_cases, resolve_cases in H |- *.
  destruct (decide (_ ∧ _)); [simpl in H; in_events H|].
  destruct (decide (size _ = 0)); simpl in H |- *;
    repeat (case_match; simpl in H |- *; try done); in_events H;
    simplify_eq; (split; [done|]).
  all: first [ eexists (t ++ [_; _]); split; [by rewrite <- app_assoc|]
             | eexists (t ++ [_; _; _]); split; [by rewrite <- app_assoc|] ].
  all: intros rows' Hin; in_events Hin; by apply Hev in Hin.
Qed.

(** The format handed to the structured renderer. *)
Lemma formatted_event_format (opts : options) (format : string)
    (data : KafkaRequestList) :
  PrintFormatted format data ∈ (runList' opts).1 →
  format = outputFormat opts ∧ format ≠ "".
Proof.
  rewrite runList_split. pose proof (fetchPage_events opts) as Hev.
  rewrite Forall_forall in Hev.
  destruct (fetchPage opts) as [t [o|resp]]; simpl in *.
  { intros H. by apply Hev in H. }
  intros H. apply elem_of_app in H as [H|H]; [by apply Hev in H|].
  rewrite presentPage_cases, resolve_cases in H.
  destruct (decide (_ ∧ _)); [simpl in H; in_events H|].
  destruct (decide (size _ = 0)); simpl in H;
    repeat (case_match; simpl in H; try done); in_events H;
    by simplify_eq.
Qed.

End RunListFailures.

(** ** The entry *)

Section EntryProperties.

Variable Emoji : string → string → string.
Variable DefaultPageNumber : Z.
Variable mapRange : gset string → list string.
Variable IsValidInput : string → list string → bool.
Variable ValidOutputFormats : list string.
Variable InvalidValueError : string → string → list string → error.
Variable ValidateSearchInput :
  (string → list (string * string) → string) → string → option error.

Local Abbreviation RunE' :=
  (RunE Emoji DefaultPageNumber mapRange IsValidInput ValidOutputFormats
     InvalidValueError ValidateSearchInput).

(** X16. Whatever the entry does to the outside, the first connection
    call included, it does after both validations passed: the output
    format is empty or valid and the search term was accepted, and the
    entry then is [runList].  A rejected input costs no call at all. *)
Theorem RunE_rejects_without_effects (opts : options) (e : event) :
  e ∈ (RunE' opts).1 →
  (outputFormat opts = ""
   ∨ IsValidInput (outputFormat opts) ValidOutputFormats = true)
  ∧ ValidateSearchInput (f_MustLocalize (f opts)) (search opts) = None
  ∧ RunE' opts = runList Emoji DefaultPageNumber mapRange opts.
Proof.
  unfold RunE.
  destruct (bool_decide (outputFormat opts ≠ "")) eqn:Hfmt; simpl.
  - destruct (IsValidInput (outputFormat opts) ValidOutputFormats) eqn:Hvalid;
      simpl; [|intros H; by apply elem_of_nil in H].
    destruct (ValidateSearchInput _ _);
      [intros H; by apply elem_of_nil in H|]. by intros _; split; [right|].
  - apply bool_decide_eq_false in Hfmt.
    destruct (ValidateSearchInput _ _);
      [intros H; by apply elem_of_nil in H|].
    intros _. split; [left|done].
    by destruct (decide (outputFormat opts = "")).
Qed.

(** An output format that is not empty and not valid is refused with the
    invalid-value error of the output flag before the search term is
    looked at; a refused search term is returned as its validation
    error. *)
Lemma RunE_rejections (opts : options) :
  (outputFormat opts ≠ "" →
   IsValidInput (outputFormat opts) ValidOutputFormats = false →
   RunE' opts
   = ([], Return (Some (InvalidValueError "output" (outputFormat opts)
                          ValidOutputFormats))))
  ∧ (∀ err,
       outputFormat opts = ""
       ∨ IsValidInput (outputFormat opts) ValidOutputFormats = true →
       ValidateSearchInput (f_MustLocalize (f opts)) (search opts) = Some err →
       RunE' opts = ([], Return (Some err))).
Proof.
  unfold RunE. split.
  - intros Hne Hinvalid. rewrite Hinvalid.
    by rewrite bool_decide_eq_true_2.
  - intros err Hok Hsearch. rewrite Hsearch.
    destruct Hok as [Hempty|Hvalid].
    + rewrite bool_decide_eq_false_2; [done|]. by intros ?.
    + rewrite Hvalid. by rewrite andb_false_r.
Qed.

(** X17. Through the entry the structured renderer only ever gets a
    format that the validation accepted. *)
Theorem RunE_renders_only_valid_formats (opts : options) (format : string)
    (data : KafkaRequestList) :
  PrintFormatted format data ∈ (RunE' opts).1 →
  format = outputFormat opts
  ∧ IsValidInput format ValidOutputFormats = true.
Proof.
  unfold RunE.
  destruct (bool_decide (outputFormat opts ≠ "")) eqn:Hfmt; simpl.
  - destruct (IsValidInput (outputFormat opts) ValidOutputFormats) eqn:Hvalid;
      simpl; [|intros H; by apply elem_of_nil in H].
    destruct (ValidateSearchInput _ _);
      [intros H; by apply elem_of_nil in H|].
    intros H. apply formatted_event_format in H as [-> _]. done.
  - apply bool_decide_eq_false in Hfmt.
    destruct (ValidateSearchInput _ _);
      [intros H; by apply elem_of_nil in H|].
    intros H. apply formatted_event_format in H as [-> Hne].
    destruct Hfmt. done.
Qed.

(** X18. With an input that passes both validations, a failure to get
    the connection is the entry's result, after that one call and nothing
    else: no request is sent and nothing is logged or printed. *)
Theorem RunE_connection_failure (opts : options) (err : error) :
  outputFormat opts = ""
  ∨ IsValidInput (outputFormat opts) ValidOutputFormats = true →
  ValidateSearchInput (f_MustLocalize (f opts)) (search opts) = None →
  f_Connection (f opts) = Err err →
  RunE' opts = ([CallConnection], Return (Some err)).
Proof.
  intros Hok Hsearch Hconn. unfold RunE. rewrite Hsearch.
  rewrite (connection_failure_returned _ _ _ _ _ Hconn).
  destruct Hok as [Hempty|Hvalid].
  - rewrite bool_decide_eq_false_2; [done|]. by intros ?.
  - by rewrite Hvalid, andb_false_r.
Qed.

End EntryProperties.

(** ** What the lookup asks *)

(** X20. Whatever the order in which the id set is ranged over, the
    predicate of a lookup request is not the empty string: it begins with
    the equality clause [id = '<c>'] of a cluster identifier [c] that the
    page refers to.  (Identifiers are spliced in as they are; what a
    server makes of the predicate is not part of the statement.) *)
Theorem lookup_predicate_never_empty (DefaultPageNumber : Z)
    (mapRange : gset string → list string) (opts : options)
    (kafkas : list KafkaRequestable) (p : ClusterListParams) :
  (∀ s, mapRange s ≡ₚ elements s) →
  CallGetClusterList p
    ∈ (getClusterIdMapFromKafkas DefaultPageNumber mapRange opts kafkas).1 →
  cl_search p ≠ ""
  ∧ ∃ c rest, references kafkas c ∧ cl_search p = idClause c +:+ rest.
Proof.
  intros Hrange. rewrite resolve_cases.
  destruct (decide (size (collectClusterIds kafkas) = 0)) as [Hz|Hnz]; simpl.
  { intros H. by apply elem_of_nil in H. }
  intros H. apply elem_of_cons in H as [[= ->]|H]; [|by apply elem_of_nil in H].
  simpl. rewrite createSearchString_join.
  destruct (mapRange (collectClusterIds kafkas)) as [|c l] eqn:Hkeys.
  { assert (Hlen : size (collectClusterIds kafkas)
                   = length (mapRange (collectClusterIds kafkas)))
      by (by rewrite Hrange).
    by rewrite Hkeys in Hlen. }
  assert (Hc : references kafkas c).
  { apply elem_of_collectClusterIds, elem_of_elements.
    rewrite <- Hrange, Hkeys. left. }
  simpl map. rewrite join_idClauses. split.
  - unfold idClause. by rewrite append_cons.
  - by exists c, (foldr (λ id r, " or " +:+ idClause id +:+ r) "" l).
Qed.

(** ** The further properties at the sample inputs *)

Lemma lookup_predicate_never_empty_witness :
  let opts := sampleOptions "" "" exampleFactory in
  let p := {| cl_url := ""; cl_token := ""; cl_search := "id = 'c1'";
              cl_page := 1; cl_size := 1 |} in
  (∀ s : gset string, elements s ≡ₚ elements s)
  ∧ CallGetClusterList p
      ∈ (getClusterIdMapFromKafkas 1 elements opts (GetItems samplePage)).1
  ∧ cl_search p ≠ "".
Proof.
  intros opts p.
  assert (H : CallGetClusterList p
                ∈ (getClusterIdMapFromKafkas 1 elements opts
                     (GetItems samplePage)).1)
    by (apply list_elem_of_lookup; exists 0; reflexivity).
  split; [done|]. split; [exact H|].
  by destruct (lookup_predicate_never_empty 1 elements opts
                 (GetItems samplePage) p (λ _, reflexivity _) H).
Defined.


Ltac event_at n := apply list_elem_of_lookup; exists n; reflexivity.

Lemma rows_copy_fields_witness :
  mapResponseItemsToRows glyph (sampleOptions "" "" exampleFactory)
    (GetItems samplePage) "k2" {["c1" := prodCluster]} = Some exampleRows
  ∧ length exampleRows = length (GetItems samplePage)
  ∧ ∃ r, exampleRows !! 2 = Some r ∧ Some "k3" = Some (ID r)
         ∧ Some "ada" = Some (Owner r) ∧ Some "ready" = Some (Status r)
         ∧ Some "aws" = Some (CloudProvider r)
         ∧ Some "us-east-1" = Some (Region r).
Proof.
  assert (H : mapResponseItemsToRows glyph (sampleOptions "" "" exampleFactory)
                (GetItems samplePage) "k2" {["c1" := prodCluster]}
              = Some exampleRows) by reflexivity.
  split; [exact H|].
  destruct (rows_copy_fields glyph _ _ _ _ _ H) as [Hlen Hrow].
  split; [exact Hlen|].
  exact (Hrow 2 (instance "k3" "gamma" None) eq_refl).
Defined.

Lemma at_most_one_row_marked_witness :
  mapResponseItemsToRows glyph (sampleOptions "" "" exampleFactory)
    (GetItems samplePage) "k2" {["c1" := prodCluster]} = Some exampleRows
  ∧ NoDup (GetId <$> GetItems samplePage)
  ∧ marked glyph "beta"
      (exampleRow "k2" ("beta" +:+ " " +:+ glyph "✔" "(current)")
         "prod-cluster (c1)")
  ∧ 1 = 1.
Proof.
  assert (H : mapResponseItemsToRows glyph (sampleOptions "" "" exampleFactory)
                (GetItems samplePage) "k2" {["c1" := prodCluster]}
              = Some exampleRows) by reflexivity.
  assert (Hnodup : NoDup (GetId <$> GetItems samplePage)).
  { apply (bool_decide_unpack (NoDup (GetId <$> GetItems samplePage))).
    vm_compute. exact I. }
  assert (Hm : marked glyph "beta"
                 (exampleRow "k2" ("beta" +:+ " " +:+ glyph "✔" "(current)")
                    "prod-cluster (c1)")) by reflexivity.
  split; [exact H|]. split; [exact Hnodup|]. split; [exact Hm|].
  exact (at_most_one_row_marked glyph _ _ _ _ _ 1 1
           (instance "k2" "beta" (Some "c1")) (instance "k2" "beta" (Some "c1"))
           _ _ "beta" "beta" H Hnodup eq_refl eq_refl eq_refl eq_refl
           eq_refl eq_refl Hm Hm).
Defined.

Lemma unselected_page_unmarked_witness :
  mapResponseItemsToRows glyph (sampleOptions "" "" exampleFactory)
    (GetItems samplePage) "-" ∅ = Some
      [exampleRow "k1" "alpha" " ()"; exampleRow "k2" "beta" " ()";
       exampleRow "k3" "gamma" "kafka.list.output.openshiftCluster.redhat"]
  ∧ (∀ k, k ∈ GetItems samplePage → GetId k ≠ Some "-")
  ∧ ∃ r, [exampleRow "k1" "alpha" " ()"; exampleRow "k2" "beta" " ()";
          exampleRow "k3" "gamma" "kafka.list.output.openshiftCluster.redhat"]
           !! 1 = Some r
         ∧ Some "beta" = Some (Name r).
Proof.
  assert (H : mapResponseItemsToRows glyph (sampleOptions "" "" exampleFactory)
                (GetItems samplePage) "-" ∅ = Some
                  [exampleRow "k1" "alpha" " ()"; exampleRow "k2" "beta" " ()";
                   exampleRow "k3" "gamma"
                     "kafka.list.output.openshiftCluster.redhat"])
    by reflexivity.
  assert (Hnot : ∀ k, k ∈ GetItems samplePage → GetId k ≠ Some "-").
  { intros k Hk. simpl in Hk.
    repeat (apply elem_of_cons in Hk as [->|Hk]; [done|]).
    by apply elem_of_nil in Hk. }
  split; [exact H|]. split; [exact Hnot|].
  exact (unselected_page_unmarked glyph _ _ _ _ _ H Hnot 1
           (instance "k2" "beta" (Some "c1")) eq_refl).
Defined.

Lemma lookup_size_bounded_witness :
  let opts := sampleOptions "" "" exampleFactory in
  let p := {| cl_url := ""; cl_token := ""; cl_search := "id = 'c1'";
              cl_page := 1; cl_size := 1 |} in
  CallGetClusterList p
    ∈ (getClusterIdMapFromKafkas 1 elements opts (GetItems samplePage)).1
  ∧ (1 ≤ cl_size p ≤ 3)%Z ∧ cl_page p = 1%Z.
Proof.
  intros opts p.
  assert (H : CallGetClusterList p
                ∈ (getClusterIdMapFromKafkas 1 elements opts
                     (GetItems samplePage)).1) by event_at 0.
  split; [exact H|].
  destruct (lookup_size_bounded 1 elements opts (GetItems samplePage) p H)
    as (Hsize & Hpage & _). by split.
Defined.

Lemma index_keeps_last_cluster_witness :
  let opts := sampleOptions "" ""
                (sampleFactory goodAdapter samplePage
                   (Ok [prodCluster; renamedCluster]) "k2") in
  references (GetItems samplePage) "c1"
  ∧ ∃ clusterIdMap,
      (getClusterIdMapFromKafkas 1 elements opts (GetItems samplePage)).2
        = Ok clusterIdMap
      ∧ clusterIdMap !! "c1" = Some renamedCluster.
Proof.
  intros opts.
  assert (Href : references (GetItems samplePage) "c1").
  { exists (instance "k1" "alpha" (Some "c1")). split; [left|reflexivity]. }
  split; [exact Href|].
  destruct (index_keeps_last_cluster 1 elements opts (GetItems samplePage)
              [prodCluster; renamedCluster]
              (ex_intro _ "c1" Href) eq_refl) as (clusterIdMap & Hres & Hlast).
  exists clusterIdMap. split; [exact Hres|]. by rewrite Hlast.
Defined.

Lemma hit_label_shows_reference_witness :
  let opts := sampleOptions "" "" exampleFactory in
  (getClusterIdMapFromKafkas 1 elements opts (GetItems samplePage)).2
    = Ok {["c1" := prodCluster]}
  ∧ mapResponseItemsToRows glyph opts (GetItems samplePage) "k2"
      {["c1" := prodCluster]} = Some exampleRows
  ∧ ∃ r, exampleRows !! 0 = Some r
         ∧ OpenshiftCluster r = "prod-cluster" +:+ " (" +:+ "c1" +:+ ")".
Proof.
  intros opts.
  assert (Hres : (getClusterIdMapFromKafkas 1 elements opts
                    (GetItems samplePage)).2 = Ok {["c1" := prodCluster]})
    by reflexivity.
  assert (Hrows : mapResponseItemsToRows glyph opts (GetItems samplePage) "k2"
                    {["c1" := prodCluster]} = Some exampleRows) by reflexivity.
  split; [exact Hres|]. split; [exact Hrows|].
  exact (hit_label_shows_reference 1 elements glyph opts (GetItems samplePage)
           "k2" _ exampleRows 0 (instance "k1" "alpha" (Some "c1")) "c1"
           prodCluster Hres Hrows eq_refl eq_refl eq_refl).
Defined.

Lemma runList_panics_only_in_table_witness :
  let opts := sampleOptions "" ""
                (sampleFactory goodAdapter (pageOf [namelessInstance])
                   (Ok []) "") in
  (runList glyph 1 elements opts).2 = Panic
  ∧ outputFormat opts = ""
  ∧ ∃ t resp, fetchPage opts = (t, inr resp)
              ∧ Exists (λ k, ¬ complete k) (GetItems resp).
Proof.
  intros opts. split; [reflexivity|].
  exact (runList_panics_only_in_table glyph 1 elements opts eq_refl).
Defined.

Lemma session_read_only_for_table_witness :
  let opts := sampleOptions "" "" exampleFactory in
  CallServiceContextLoad ∈ (runList glyph 1 elements opts).1
  ∧ outputFormat opts = ""
  ∧ ∃ t resp, fetchPage opts = (t, inr resp) ∧ GetItems resp ≠ [].
Proof.
  intros opts.
  assert (H : CallServiceContextLoad ∈ (runList glyph 1 elements opts).1)
    by event_at 5.
  split; [exact H|].
  exact (session_read_only_for_table glyph 1 elements opts H).
Defined.

Lemma formatted_gets_fetched_page_witness :
  let opts := sampleOptions "json" "" exampleFactory in
  PrintFormatted "json" samplePage ∈ (runList glyph 1 elements opts).1
  ∧ (fetchPage opts).2 = inr samplePage
  ∧ (runList glyph 1 elements opts).2 = Return None.
Proof.
  intros opts.
  assert (H : PrintFormatted "json" samplePage
                ∈ (runList glyph 1 elements opts).1) by event_at 5.
  split; [exact H|].
  destruct (formatted_gets_fetched_page glyph 1 elements opts "json"
              samplePage H) as (_ & _ & Hpage & Hret).
  by split.
Defined.


Lemma session_failure_prints_nothing_witness :
  let opts := sampleOptions "" "" brokenSessionFactory in
  fetchPage opts = ((fetchPage opts).1, inr samplePage)
  ∧ f_ServiceContext_Load (f opts) = Err "context file unreadable"
  ∧ (runList glyph 1 elements opts).2
    = Return (Some "context file unreadable")
  ∧ ∀ rows, PrintTable rows ∉ (runList glyph 1 elements opts).1.
Proof.
  intros opts. split; [reflexivity|]. split; [reflexivity|].
  apply (session_failure_prints_nothing glyph 1 elements opts
           (fetchPage opts).1 samplePage {["c1" := prodCluster]}
           "context file unreadable"); [reflexivity|reflexivity|done|reflexivity|].
  by left.
Defined.

Lemma printed_table_means_success_witness :
  let opts := sampleOptions "" "" exampleFactory in
  PrintTable exampleRows ∈ (runList glyph 1 elements opts).1
  ∧ (runList glyph 1 elements opts).2 = Return None
  ∧ ∃ t, (runList glyph 1 elements opts).1
         = t ++ [PrintTable exampleRows; LogInfo ""]
         ∧ ∀ rows', PrintTable rows' ∉ t.
Proof.
  intros opts.
  assert (H : PrintTable exampleRows ∈ (runList glyph 1 elements opts).1)
    by event_at 7.
  split; [exact H|].
  exact (printed_table_means_success glyph 1 elements opts exampleRows H).
Defined.

Lemma RunE_rejects_without_effects_witness :
  let opts := sampleOptions "json" "prod" exampleFactory in
  let entry := RunE glyph 1 elements sampleIsValidInput ["json"; "yaml"; "yml"]
                 sampleInvalidValueError sampleValidateSearchInput in
  CallConnection ∈ (entry opts).1
  ∧ sampleIsValidInput "json" ["json"; "yaml"; "yml"] = true
  ∧ sampleValidateSearchInput (f_MustLocalize (f opts)) "prod" = None
  ∧ entry opts = runList glyph 1 elements opts.
Proof.
  intros opts entry.
  assert (H : CallConnection ∈ (entry opts).1) by event_at 0.
  split; [exact H|].
  destruct (RunE_rejects_without_effects glyph 1 elements sampleIsValidInput
              ["json"; "yaml"; "yml"] sampleInvalidValueError
              sampleValidateSearchInput opts CallConnection H)
    as (_ & Hsearch & Hrun).
  split; [reflexivity|]. by split.
Defined.

Lemma RunE_renders_only_valid_formats_witness :
  let opts := sampleOptions "yaml" "" exampleFactory in
  let entry := RunE glyph 1 elements sampleIsValidInput ["json"; "yaml"; "yml"]
                 sampleInvalidValueError sampleValidateSearchInput in
  PrintFormatted "yaml" samplePage ∈ (entry opts).1
  ∧ "yaml" = outputFormat opts
  ∧ sampleIsValidInput "yaml" ["json"; "yaml"; "yml"] = true.
Proof.
  intros opts entry.
  assert (H : PrintFormatted "yaml" samplePage ∈ (entry opts).1) by event_at 5.
  split; [exact H|].
  exact (RunE_renders_only_valid_formats glyph 1 elements sampleIsValidInput
           ["json"; "yaml"; "yml"] sampleInvalidValueError
           sampleValidateSearchInput opts "yaml" samplePage H).
Defined.

Lemma RunE_connection_failure_witness :
  let opts := sampleOptions "" "" offlineFactory in
  f_Connection (f opts) = Err "not logged in"
  ∧ RunE glyph 1 elements sampleIsValidInput ["json"; "yaml"; "yml"]
      sampleInvalidValueError sampleValidateSearchInput opts
    = ([CallConnection], Return (Some "not logged in")).
Proof.
  intros opts. split; [reflexivity|].
  apply RunE_connection_failure; [by left|reflexivity|reflexivity].
Defined.

(** The entry refuses a format that is not among the valid ones, and a
    search term with a quote, without a call. *)
Example entry_refuses_bad_input :
  let entry := RunE glyph 1 elements sampleIsValidInput ["json"; "yaml"; "yml"]
                 sampleInvalidValueError sampleValidateSearchInput in
  entry (sampleOptions "xml" "it's" exampleFactory)
  = ([], Return (Some "invalid value xml for --output"))
  ∧ entry (sampleOptions "json" "it's" exampleFactory)
    = ([], Return (Some "kafka.validation.error.illegalSearchValue")).
Proof. split; reflexivity. Qed.
